(** * Bollinger Bands filter of pyalgotrade/technical/bollinger.py

    A shallow embedding of [BollingerBands] and of the notification
    pipeline it is wired into, followed by the properties of the
    handler [__onNewValue] and of the construction [__init__].

    Numbers.  The values that flow through the filter are numbers or
    [None].  The handler is duck-typed: it applies [+], [*] and [/] to
    whatever numbers the providers deliver, so the embedding is generic
    in the numbers ([Number]) and is instantiated at exact rationals, at
    Python's built-in floats (binary64, [/] raises ZeroDivisionError on
    a zero divisor) and at float64 scalars (binary64, [/] returns inf or
    nan on a zero divisor).

    Effects.  The handler mutates the three output series of [self]
    and may raise; it is written in a small state-and-exception monad
    in which a raised exception leaves the state as it was mutated so
    far, as in Python. *)

From Stdlib Require Import ZArith QArith Qcanon List Bool Lia.
From Stdlib Require Import Uint63 PrimFloat FloatOps SpecFloat.
Import ListNotations.

Set Warnings "-inexact-float".

Open Scope Z_scope.

(** ** Exceptions *)

(** Time stamps of the series, in increasing order of time. *)
Definition datetime := Z.

Inductive exn : Type :=
| TypeError
| ZeroDivisionError
| IndexError
| ConfigError.

(** [ZeroDivisionError] is the only one of these exceptions that derives
    from [ArithmeticError]. *)
Definition is_ArithmeticError (e : exn) : bool :=
  match e with
  | ZeroDivisionError => true
  | _ => false
  end.

Inductive result (A : Type) : Type :=
| Ok (a : A)
| Raise (e : exn).
Arguments Ok {A} a.
Arguments Raise {A} e.

(** ** State and exception monad *)

Definition M (S A : Type) : Type := S -> result A * S.

Definition ret {S A} (a : A) : M S A := fun s => (Ok a, s).

Definition bind {S A B} (c : M S A) (k : A -> M S B) : M S B :=
  fun s =>
    match c s with
    | (Ok a, s') => k a s'
    | (Raise e, s') => (Raise e, s')
    end.

Definition gets {S A} (f : S -> A) : M S A := fun s => (Ok (f s), s).

Definition modify {S} (f : S -> S) : M S unit := fun s => (Ok tt, f s).

(** An operation that only reads the state and may raise. *)
Definition lift {S A} (f : S -> result A) : M S A := fun s => (f s, s).

(** A computation without state that may raise. *)
Definition try {S A} (r : result A) : M S A := fun s => (r, s).

(** Runs a computation on a component of the state. *)
Definition zoom {S T A} (get : S -> T) (set : T -> S -> S) (c : M T A) : M S A :=
  fun s => let (r, t) := c (get s) in (r, set t s).

Declare Scope monad_scope.
Delimit Scope monad_scope with monad.
Notation "x <- c ;; k" := (bind c (fun x => k))
  (at level 61, c at next level, right associativity) : monad_scope.
Notation "c ;;; k" := (bind c (fun _ => k))
  (at level 61, right associativity) : monad_scope.

(** ** Numbers *)

(** The arithmetic of the numbers in the series.  [num_add], [num_mul]
    and [num_div] are the operators [+], [*] and [/] of lines 69-71 on
    two numbers, and [num_minus_one] is the literal [-1] as an operand
    of [*].  [num_div] gives [None] where the division raises
    ZeroDivisionError: whether it does on a zero divisor depends on the
    type of the operands.  The other operations are those of the
    statistic providers: [num_over x n] divides by the period. *)
Class Number (T : Type) : Type := {
  num_add : T -> T -> T;
  num_mul : T -> T -> T;
  num_div : T -> T -> option T;
  num_minus_one : T;
  num_zero : T;
  num_sub : T -> T -> T;
  num_over : T -> Z -> T;
  num_sqrt : T -> T
}.

(** The handlers that can be subscribed to the source series: those of
    the two statistic providers and of the composite, and handlers of
    other consumers, which do not touch the composite. *)
Inductive handler : Type :=
| Foreign (id : nat)
| SMA_onNewValue
| StdDev_onNewValue
| Bollinger_onNewValue.

Section Model.

Context {T : Type} {N : Number T}.
Local Open Scope monad_scope.

(** ** Python values *)

(** A number or [None]. *)
Definition pyvalue : Type := option T.

(** ** Python operators on numbers-or-None *)

Definition py_add (a b : pyvalue) : result pyvalue :=
  match a, b with
  | Some x, Some y => Ok (Some (num_add x y))
  | _, _ => Raise TypeError
  end.

Definition py_mul (a b : pyvalue) : result pyvalue :=
  match a, b with
  | Some x, Some y => Ok (Some (num_mul x y))
  | _, _ => Raise TypeError
  end.

Definition py_div (a b : pyvalue) : result pyvalue :=
  match a, b with
  | Some x, Some y =>
      match num_div x y with
      | Some q => Ok (Some q)
      | None => Raise ZeroDivisionError
      end
  | _, _ => Raise TypeError
  end.

(** ** dataseries.SequenceDataSeries *)

(** Modelled from the spec: the class [SequenceDataSeries] of
    pyalgotrade/dataseries is missing; this is the spec's BoundedSeries,
    an ordered sequence of (timestamp, value) pairs, oldest first, with
    a fixed maximum length. *)
Record SequenceDataSeries : Type := mkSeries {
  maxLen : positive;
  entries : list (datetime * pyvalue)
}.

(** Modelled from the spec: [append] of BoundedSeries is missing; "if
    bounded and at capacity, evicts oldest entry first". *)
Definition appendWithDateTime (dateTime : datetime) (value : pyvalue)
    (s : SequenceDataSeries) : SequenceDataSeries :=
  let kept :=
    if (Pos.to_nat (maxLen s) <=? length (entries s))%nat
    then tl (entries s) else entries s in
  mkSeries (maxLen s) (kept ++ [(dateTime, value)]).

(** Modelled from the spec: [get(offset)] of BoundedSeries is missing;
    offset [-1] is the most recent entry, and an offset outside the
    stored range fails with an IndexError; non-negative keys count from
    the oldest entry as Python sequences do. *)
Definition getitem (s : SequenceDataSeries) (key : Z) : result pyvalue :=
  let n := Z.of_nat (length (entries s)) in
  let i := if key <? 0 then key + n else key in
  if (i <? 0) || (n <=? i) then Raise IndexError
  else match nth_error (entries s) (Z.to_nat i) with
       | Some (_, v) => Ok v
       | None => Raise IndexError
       end.

(** The values of a series, oldest first. *)
Definition series_values (s : SequenceDataSeries) : list pyvalue :=
  map snd (entries s).

(** ** technical.ma.SMA and technical.stats.StdDev *)

(** Modelled from the spec: the statistic providers [ma.SMA] and
    [stats.StdDev] are missing; each is the spec's IncrementalStatistic,
    a period and an output series of its own. *)
Record IncrementalStatistic : Type := mkStat {
  period : Z;
  out : SequenceDataSeries
}.

(** ** BollingerBands *)

Record BollingerBands : Type := mkBands {
  __sma : IncrementalStatistic;
  __stdDev : IncrementalStatistic;
  __upperBand : SequenceDataSeries;
  __lowerBand : SequenceDataSeries;
  __numStdDev : T;
  __bandWidth : SequenceDataSeries
}.

Definition set_upperBand (f : SequenceDataSeries -> SequenceDataSeries)
    (self : BollingerBands) : BollingerBands :=
  mkBands (__sma self) (__stdDev self) (f (__upperBand self))
          (__lowerBand self) (__numStdDev self) (__bandWidth self).

Definition set_lowerBand (f : SequenceDataSeries -> SequenceDataSeries)
    (self : BollingerBands) : BollingerBands :=
  mkBands (__sma self) (__stdDev self) (__upperBand self)
          (f (__lowerBand self)) (__numStdDev self) (__bandWidth self).

Definition set_bandWidth (f : SequenceDataSeries -> SequenceDataSeries)
    (self : BollingerBands) : BollingerBands :=
  mkBands (__sma self) (__stdDev self) (__upperBand self)
          (__lowerBand self) (__numStdDev self) (f (__bandWidth self)).

Definition setSMA (sma : IncrementalStatistic) (self : BollingerBands)
    : BollingerBands :=
  mkBands sma (__stdDev self) (__upperBand self)
          (__lowerBand self) (__numStdDev self) (__bandWidth self).

Definition setStdDev (stdDev : IncrementalStatistic) (self : BollingerBands)
    : BollingerBands :=
  mkBands (__sma self) stdDev (__upperBand self)
          (__lowerBand self) (__numStdDev self) (__bandWidth self).

Definition getStdDev (self : BollingerBands) : SequenceDataSeries :=
  out (__stdDev self).
Definition getUpperBand (self : BollingerBands) : SequenceDataSeries :=
  __upperBand self.
Definition getMiddleBand (self : BollingerBands) : SequenceDataSeries :=
  out (__sma self).
Definition getLowerBand (self : BollingerBands) : SequenceDataSeries :=
  __lowerBand self.
Definition getBandWidth (self : BollingerBands) : SequenceDataSeries :=
  __bandWidth self.

Section Handler.

(** The three values computed by lines 61-71 of the handler. *)
Definition band_values (value : pyvalue)
    : M BollingerBands (pyvalue * pyvalue * pyvalue) :=
  match value with
  | Some _ =>
      sma <- lift (fun self => getitem (out (__sma self)) (-1)) ;;
      match sma with
      | Some _ =>
          stdDev <- lift (fun self => getitem (out (__stdDev self)) (-1)) ;;
          numStdDev <- gets (fun self => Some (__numStdDev self)) ;;
          t <- try (py_mul stdDev numStdDev) ;;
          upperValue <- try (py_add sma t) ;;
          t1 <- try (py_mul stdDev numStdDev) ;;
          t2 <- try (py_mul t1 (Some num_minus_one)) ;;
          lowerValue <- try (py_add sma t2) ;;
          bandWidth <- try (py_div stdDev sma) ;;
          ret (upperValue, lowerValue, bandWidth)
      | None => ret (None, None, None)
      end
  | None => ret (None, None, None)
  end.

(** [BollingerBands.__onNewValue]. *)
Definition __onNewValue (dataSeries : SequenceDataSeries)
    (dateTime : datetime) (value : pyvalue) : M BollingerBands unit :=
  vals <- band_values value ;;
  let '(upperValue, lowerValue, bandWidth) := vals in
  modify (set_upperBand (appendWithDateTime dateTime upperValue)) ;;;
  modify (set_lowerBand (appendWithDateTime dateTime lowerValue)) ;;;
  modify (set_bandWidth (appendWithDateTime dateTime bandWidth)).

End Handler.

(** ** The notification pipeline *)

(** Modelled from the spec: the event of pyalgotrade/observer is
    missing; a source series carries "an explicit ordered list of
    registered callback handles". *)
Record Source : Type := mkSource {
  series : SequenceDataSeries;
  newValueEvent : list handler
}.

(** Modelled from the spec: [subscribe] is missing; handlers are
    invoked "in registration order", so a new one goes last. *)
Definition subscribe (h : handler) (dataSeries : Source) : Source :=
  mkSource (series dataSeries) (newValueEvent dataSeries ++ [h]).

Record Pipeline : Type := mkPipeline {
  source : Source;
  self : BollingerBands
}.

Fixpoint all_present (vs : list pyvalue) : option (list T) :=
  match vs with
  | [] => Some []
  | None :: _ => None
  | Some x :: rest => option_map (cons x) (all_present rest)
  end.

(** Modelled from the spec: the trailing window of a statistic is
    missing; it is absent "if fewer than period of the most recent
    entries in the source (by count, not absent-filtered) are
    available, or any of the trailing period source values is absent". *)
Definition window (period : Z) (dataSeries : SequenceDataSeries)
    : option (list T) :=
  let vs := series_values dataSeries in
  let n := Z.to_nat period in
  if (length vs <? n)%nat then None
  else all_present (skipn (length vs - n) vs).

Definition total (w : list T) : T := fold_right num_add num_zero w.

(** Modelled from the spec: "moving average = arithmetic mean". *)
Definition mean (period : Z) (w : list T) : T :=
  num_over (total w) period.

(** Modelled from the spec: "moving standard deviation = population
    standard deviation (divide by period, not period - 1) of the same
    window". *)
Definition pstdev (period : Z) (w : list T) : T :=
  let m := mean period w in
  num_sqrt
    (num_over
       (total (map (fun x => num_mul (num_sub x m) (num_sub x m)) w))
       period).

Section Pipeline.

(** [dataseries.DEFAULT_MAX_LEN], used when [maxLen] is [None]; the
    constant is not part of bollinger.py. *)
Variable DEFAULT_MAX_LEN : positive.

(** [dataseries.SequenceDataSeries(maxLen)]. *)
Definition new_series (maxLen : option positive) : SequenceDataSeries :=
  mkSeries (match maxLen with
            | Some m => m
            | None => DEFAULT_MAX_LEN
            end) [].

(** Modelled from the spec: the handler of a statistic provider is
    missing; it appends the value computed over the trailing window,
    absent or not, with the time stamp of the tick. *)
Definition statistic_onNewValue (calc : Z -> list T -> T)
    (dataSeries : SequenceDataSeries) (dateTime : datetime)
    (value : pyvalue) : M IncrementalStatistic unit :=
  fun st =>
    let computed := option_map (calc (period st)) (window (period st) dataSeries) in
    (Ok tt, mkStat (period st) (appendWithDateTime dateTime computed (out st))).

(** Modelled from the spec: the constructors of the providers are
    missing; "period < 2 is a construction-time error (ConfigError-kind)"
    and the provider "subscribes to sourceSeries at construction time". *)
Definition new_statistic (h : handler) (dataSeries : Source) (period : Z)
    (maxLen : option positive) : result (IncrementalStatistic * Source) :=
  if period <? 2 then Raise ConfigError
  else Ok (mkStat period (new_series maxLen), subscribe h dataSeries).

Definition ma_SMA := new_statistic SMA_onNewValue.
Definition stats_StdDev := new_statistic StdDev_onNewValue.

(** [BollingerBands.__init__]; the source series with its subscribers
    is threaded through the three subscriptions. *)
Definition __init__ (dataSeries : Source) (period : Z) (numStdDev : T)
    (maxLen : option positive) : result Pipeline :=
  match ma_SMA dataSeries period maxLen with
  | Raise e => Raise e
  | Ok (sma, dataSeries1) =>
      match stats_StdDev dataSeries1 period maxLen with
      | Raise e => Raise e
      | Ok (stdDev, dataSeries2) =>
          let upperBand := new_series maxLen in
          let lowerBand := new_series maxLen in
          let bandWidth := new_series maxLen in
          (* It is important to subscribe after sma and stddev since
             we'll use those values. *)
          Ok (mkPipeline (subscribe Bollinger_onNewValue dataSeries2)
                (mkBands sma stdDev upperBand lowerBand numStdDev bandWidth))
      end
  end.

End Pipeline.

(** What each subscribed handler does to the composite. *)
Definition call (h : handler) (dataSeries : SequenceDataSeries)
    (dateTime : datetime) (value : pyvalue) : M BollingerBands unit :=
  match h with
  | Foreign _ => ret tt
  | SMA_onNewValue =>
      zoom __sma setSMA (statistic_onNewValue mean dataSeries dateTime value)
  | StdDev_onNewValue =>
      zoom __stdDev setStdDev
           (statistic_onNewValue pstdev dataSeries dateTime value)
  | Bollinger_onNewValue => __onNewValue dataSeries dateTime value
  end.

(** Modelled from the spec: [emit] is missing; "notification is a
    synchronous fan-out loop in registration order", and an exception
    of a handler ends it. *)
Fixpoint emit (hs : list handler) (dataSeries : SequenceDataSeries)
    (dateTime : datetime) (value : pyvalue) : M BollingerBands unit :=
  match hs with
  | [] => ret tt
  | h :: rest =>
      call h dataSeries dateTime value ;;;
      emit rest dataSeries dateTime value
  end.

(** The composite once the handlers of its two providers have run on a
    tick, which is where its own handler finds it. *)
Definition after_providers (dataSeries : SequenceDataSeries)
    (dateTime : datetime) (value : pyvalue) (b : BollingerBands)
    : BollingerBands :=
  snd (emit [SMA_onNewValue; StdDev_onNewValue] dataSeries dateTime value b).

(** Modelled from the spec: [append] on the source series; the
    notification is triggered "after the value is stored". *)
Definition source_append (dateTime : datetime) (value : pyvalue)
    : M Pipeline unit :=
  fun p =>
    let stored := appendWithDateTime dateTime value (series (source p)) in
    let (r, b) :=
      emit (newValueEvent (source p)) stored dateTime value (self p) in
    (r, mkPipeline (mkSource stored (newValueEvent (source p))) b).

(** The producer: the ticks are appended in order, up to the first one
    that raises. *)
Fixpoint feed (ticks : list (datetime * pyvalue)) : M Pipeline unit :=
  match ticks with
  | [] => ret tt
  | (dateTime, value) :: rest =>
      source_append dateTime value ;;; feed rest
  end.

(** ** Reachable states *)

(** The states a pipeline goes through while the producer appends to
    the source, whether the appends raise or not. *)
Inductive evolves (step : datetime -> pyvalue -> M Pipeline unit)
    (p0 : Pipeline) : Pipeline -> Prop :=
| evolves_refl : evolves step p0 p0
| evolves_step p dateTime value :
    evolves step p0 p ->
    evolves step p0 (snd (step dateTime value p)).

End Model.

Arguments pyvalue T : clear implicits.
Arguments SequenceDataSeries T : clear implicits.
Arguments IncrementalStatistic T : clear implicits.
Arguments BollingerBands T : clear implicits.
Arguments Source T : clear implicits.
Arguments Pipeline T : clear implicits.

(** ** Three kinds of numbers *)

Definition Qc_of_Z (z : Z) : Qc := Q2Qc (inject_Z z).

(** A square root on the rationals, exact on squares of rationals; it
    instantiates the square root of the standard deviation where the
    pipeline is run on concrete ticks. *)
Definition Qc_sqrt (x : Qc) : Qc :=
  Q2Qc (Z.sqrt (Qnum x) # Pos.sqrt (Qden x)).

(** Exact rational numbers: the operations are those of the field, and
    the division raises on a zero divisor.  The square root, which
    leaves the rationals, is a parameter. *)
Definition rational (sqrt : Qc -> Qc) : Number Qc := {|
  num_add := Qcplus;
  num_mul := Qcmult;
  num_div := fun x y => if Qc_eq_dec y 0%Qc then None else Some (x / y)%Qc;
  num_minus_one := (- (1))%Qc;
  num_zero := 0%Qc;
  num_sub := Qcminus;
  num_over := fun x n => (x / Qc_of_Z n)%Qc;
  num_sqrt := sqrt
|}.

(** The float of a period, which is a small positive integer. *)
Definition float_of_Z (n : Z) : float := PrimFloat.of_uint63 (Uint63.of_Z n).

(** Python's built-in floats: binary64 arithmetic, and a division that
    raises ZeroDivisionError when the divisor compares equal to zero. *)
Definition builtin_float : Number float := {|
  num_add := PrimFloat.add;
  num_mul := PrimFloat.mul;
  num_div := fun x y =>
    if PrimFloat.eqb y 0%float then None else Some (PrimFloat.div x y);
  num_minus_one := (-1)%float;
  num_zero := 0%float;
  num_sub := PrimFloat.sub;
  num_over := fun x n => PrimFloat.div x (float_of_Z n);
  num_sqrt := PrimFloat.sqrt
|}.

(** float64 scalars: the same binary64 arithmetic, and the division of
    IEEE 754, which returns an infinity or a nan on a zero divisor. *)
Definition numpy_float64 : Number float := {|
  num_add := PrimFloat.add;
  num_mul := PrimFloat.mul;
  num_div := fun x y => Some (PrimFloat.div x y);
  num_minus_one := (-1)%float;
  num_zero := 0%float;
  num_sub := PrimFloat.sub;
  num_over := fun x n => PrimFloat.div x (float_of_Z n);
  num_sqrt := PrimFloat.sqrt
|}.

(** The rational number a float stands for, when it is finite. *)
Definition float_to_Q (x : float) : option Q :=
  match Prim2SF x with
  | S754_zero _ => Some 0%Q
  | S754_finite negative m e =>
      let n := if negative then Z.neg m else Z.pos m in
      Some (inject_Z n * Qpower 2 e)%Q
  | _ => None
  end.

(** ** Relations between the series of a composite *)

Definition is_foreign (h : handler) : bool :=
  match h with
  | Foreign _ => true
  | _ => false
  end.

(** The three handlers of a composite, in the order in which [__init__]
    subscribes them. *)
Definition own_handlers : list handler :=
  [SMA_onNewValue; StdDev_onNewValue; Bollinger_onNewValue].

Section Relations.

Context {T : Type} {N : Number T}.

(** A pipeline as [__init__] wires it: the three handlers of the
    composite are subscribed last and in order, behind foreign handlers
    only, and both providers have the period of the composite. *)
Definition wired (period0 : Z) (p : Pipeline T) : Prop :=
  exists fs : list handler,
    forallb is_foreign fs = true /\
    newValueEvent (source p) = fs ++ own_handlers /\
    period (__sma (self p)) = period0 /\
    period (__stdDev (self p)) = period0.

(** [s'] is [s] after [n] appends: same maximum length, and [n] more
    entries up to that maximum. *)
Definition grown (n : nat) (s s' : SequenceDataSeries T) : Prop :=
  maxLen s' = maxLen s /\
  ((length (entries s) <= Pos.to_nat (maxLen s))%nat ->
   length (entries s')
   = Nat.min (length (entries s) + n) (Pos.to_nat (maxLen s))).

Definition is_present (v : pyvalue T) : bool :=
  match v with
  | Some _ => true
  | None => false
  end.

(** The time stamps of a series and which of its values are present. *)
Definition shape (s : SequenceDataSeries T) : list (datetime * bool) :=
  map (fun e => (fst e, is_present (snd e))) (entries s).

(** The three output series have one maximum length, one sequence of
    time stamps, and values present at the same places. *)
Definition outputs_aligned (self : BollingerBands T) : Prop :=
  maxLen (__upperBand self) = maxLen (__lowerBand self) /\
  maxLen (__lowerBand self) = maxLen (__bandWidth self) /\
  shape (__upperBand self) = shape (__lowerBand self) /\
  shape (__lowerBand self) = shape (__bandWidth self).

(** [s] holds the most recent of the time stamps [T], as many as its
    maximum length [c] allows. *)
Definition tracks (c : positive) (stamps : list datetime)
    (s : SequenceDataSeries T) : Prop :=
  maxLen s = c /\
  map fst (entries s) = skipn (length stamps - Pos.to_nat c) stamps.

(** The entries that one tick leaves in the moving average, the
    standard deviation, the upper band, the lower band and the band
    width agree: same time stamp, and the bands are absent together or
    computed from the average and the deviation by the operations of
    lines 69-71. *)
Definition row_ok (k : T) (m s u l w : datetime * pyvalue T) : Prop :=
  fst s = fst m /\ fst u = fst m /\ fst l = fst m /\ fst w = fst m /\
  match snd u with
  | Some x =>
      exists a b q : T,
        snd m = Some a /\ snd s = Some b /\ num_div b a = Some q /\
        x = num_add a (num_mul b k) /\
        snd l = Some (num_add a (num_mul (num_mul b k) num_minus_one)) /\
        snd w = Some q
  | None => snd l = None /\ snd w = None
  end.

(** Row by row, the five series of a composite agree. *)
Inductive consistent (k : T)
    : list (datetime * pyvalue T) -> list (datetime * pyvalue T) ->
      list (datetime * pyvalue T) -> list (datetime * pyvalue T) ->
      list (datetime * pyvalue T) -> Prop :=
| consistent_nil : consistent k [] [] [] [] []
| consistent_cons m s u l w ms ss us ls ws :
    row_ok k m s u l w ->
    consistent k ms ss us ls ws ->
    consistent k (m :: ms) (s :: ss) (u :: us) (l :: ls) (w :: ws).

(** The five series have the maximum length [c] and agree row by row. *)
Definition history_ok (c : positive) (self : BollingerBands T) : Prop :=
  maxLen (out (__sma self)) = c /\ maxLen (out (__stdDev self)) = c /\
  maxLen (__upperBand self) = c /\ maxLen (__lowerBand self) = c /\
  maxLen (__bandWidth self) = c /\
  consistent (__numStdDev self)
    (entries (out (__sma self))) (entries (out (__stdDev self)))
    (entries (__upperBand self)) (entries (__lowerBand self))
    (entries (__bandWidth self)).

End Relations.

(** The mirror image of a composite: the opposite number of standard
    deviations, and the upper and lower series exchanged. *)
Definition mirror (self : BollingerBands Qc) : BollingerBands Qc :=
  mkBands (__sma self) (__stdDev self) (__lowerBand self) (__upperBand self)
          (- __numStdDev self)%Qc (__bandWidth self).

(** ** Concrete inputs *)

Definition qc (n : Z) (d : positive) : Qc := Q2Qc (n # d).

Definition tick (t : datetime) (n : Z) : datetime * pyvalue Qc :=
  (t, Some (qc n 1)).

Definition series_of {T : Type} (l : list (datetime * pyvalue T))
    : SequenceDataSeries T :=
  mkSeries 1024 l.

(** A source 10, 12 with period 2 and two deviations, on the second
    tick, after the handlers of the providers and before the one of the
    composite. *)
Definition source_second_tick : SequenceDataSeries Qc :=
  series_of [tick 1 10; tick 2 12].

Definition bands_second_tick : BollingerBands Qc :=
  mkBands (mkStat 2 (series_of [(1, None); tick 2 11]))
          (mkStat 2 (series_of [(1, None); tick 2 1]))
          (series_of [(1, None)]) (series_of [(1, None)])
          (qc 2 1) (series_of [(1, None)]).

(** The same composite one tick earlier: the window is not full. *)
Definition bands_first_tick : BollingerBands Qc :=
  mkBands (mkStat 2 (series_of [(1, None)]))
          (mkStat 2 (series_of [(1, None)]))
          (series_of []) (series_of []) (qc 2 1) (series_of []).

(** A source -1, 3, -3 with period 2, on the third tick: the average of
    3 and -3 is 0 and their deviation is 3. *)
Definition source_zero_average : SequenceDataSeries Qc :=
  series_of [tick 1 (-1); tick 2 3; tick 3 (-3)].

Definition bands_zero_average : BollingerBands Qc :=
  mkBands (mkStat 2 (series_of [(1, None); tick 2 1; tick 3 0]))
          (mkStat 2 (series_of [(1, None); tick 2 2; tick 3 3]))
          (series_of [(1, None); tick 2 5])
          (series_of [(1, None); tick 2 (-3)])
          (qc 2 1)
          (series_of [(1, None); tick 2 2]).

(** The composite of the second tick after [setStdDev] has installed a
    provider whose latest value is absent. *)
Definition bands_no_deviation : BollingerBands Qc :=
  setStdDev (mkStat 3 (series_of [(1, None); (2, None)])) bands_second_tick.

(** A composite whose providers have another period and another
    history than [bands_second_tick], but the same latest values. *)
Definition bands_other_history : BollingerBands Qc :=
  mkBands (mkStat 5 (series_of [tick 3 4; tick 7 11]))
          (mkStat 5 (series_of [tick 7 1]))
          (series_of []) (series_of [tick 6 0]) (qc 2 1) (series_of []).

Definition empty_source : Source Qc := mkSource (series_of []) [].

(** The pipeline that [__init__] builds on the empty source with period
    2 and two deviations, for a default maximum length of 1024. *)
Definition scenario_start (ml : option positive) : Pipeline Qc :=
  mkPipeline
    (mkSource (series_of []) own_handlers)
    (mkBands (mkStat 2 (new_series 1024 ml)) (mkStat 2 (new_series 1024 ml))
             (new_series 1024 ml) (new_series 1024 ml) (qc 2 1)
             (new_series 1024 ml)).

(** The ticks of the scenario of the spec: 10, 12, 14, None, 16. *)
Definition scenario : list (datetime * pyvalue Qc) :=
  [tick 1 10; tick 2 12; tick 3 14; (4, None); tick 5 16].

Definition zero_average_ticks : list (datetime * pyvalue Qc) :=
  [tick 1 (-1); tick 2 3; tick 3 (-3)].

(** A composite on binary64 numbers between the handlers of its
    providers and its own, with the given latest average, latest
    deviation and number of deviations. *)
Definition float_bands (sma stdDev numStdDev : float) : BollingerBands float :=
  mkBands (mkStat 2 (series_of [(1, Some sma)]))
          (mkStat 2 (series_of [(1, Some stdDev)]))
          (series_of []) (series_of []) numStdDev (series_of []).

(** The source -1, 3, -3 in binary64 and the pipeline that [__init__]
    builds for it with period 2 and two deviations. *)
Definition float_zero_average_ticks : list (datetime * pyvalue float) :=
  [(1, Some (-1)%float); (2, Some 3%float); (3, Some (-3)%float)].

Definition float_start : Pipeline float :=
  mkPipeline
    (mkSource (series_of []) own_handlers)
    (mkBands (mkStat 2 (new_series 1024 None)) (mkStat 2 (new_series 1024 None))
             (new_series 1024 None) (new_series 1024 None) 2%float
             (new_series 1024 None)).

(** Equalities between concrete values: the numbers are compared
    through their fractions, which are canonical. *)
Ltac qc_eq :=
  vm_compute;
  repeat match goal with
         | |- _ /\ _ => split
         | |- @eq Qc _ _ => apply Qc_is_canon; reflexivity
         | |- _ = _ => reflexivity
         | |- _ = _ => progress f_equal
         end.

(** ** The handler, case by case *)

Section HandlerFacts.

Context {T : Type} {N : Number T}.

Variables (dataSeries : SequenceDataSeries T) (dateTime : datetime).

(** Reading the statistics never changes the composite. *)
Lemma band_values_state (value : pyvalue T) (self : BollingerBands T) :
  snd (band_values value self) = self.
Proof.
  unfold band_values, bind, lift, try, gets, ret.
  destruct value as [x|]; [|reflexivity].
  destruct (getitem (out (__sma self)) (-1)) as [[sma|]|e]; try reflexivity.
  destruct (getitem (out (__stdDev self)) (-1)) as [[sd|]|e]; try reflexivity.
  simpl. destruct (num_div sd sma); reflexivity.
Qed.

(** The appends come after everything that can raise. *)
Lemma onNewValue_unfold (value : pyvalue T) (self : BollingerBands T) :
  __onNewValue dataSeries dateTime value self =
  match fst (band_values value self) with
  | Ok (u, l, w) =>
      (Ok tt,
       mkBands (__sma self) (__stdDev self)
         (appendWithDateTime dateTime u (__upperBand self))
         (appendWithDateTime dateTime l (__lowerBand self))
         (__numStdDev self)
         (appendWithDateTime dateTime w (__bandWidth self)))
  | Raise e => (Raise e, self)
  end.
Proof.
  unfold __onNewValue, bind at 1.
  pose proof (band_values_state value self) as Hs.
  destruct (band_values value self) as [[[[u l] w]|e] s']; simpl in *; subst s';
    reflexivity.
Qed.

(** What lines 69-71 compute from a present average and a present
    deviation: the division decides between an exception and three
    values. *)
Lemma band_values_present (x sma sd : T) (self : BollingerBands T) :
  getitem (out (__sma self)) (-1) = Ok (Some sma) ->
  getitem (out (__stdDev self)) (-1) = Ok (Some sd) ->
  fst (band_values (Some x) self) =
  match num_div sd sma with
  | Some q =>
      Ok (Some (num_add sma (num_mul sd (__numStdDev self))),
          Some (num_add sma
                  (num_mul (num_mul sd (__numStdDev self)) num_minus_one)),
          Some q)
  | None => Raise ZeroDivisionError
  end.
Proof.
  intros Hsma Hsd.
  unfold band_values, bind, lift, try, gets, ret.
  rewrite Hsma, Hsd. simpl.
  destruct (num_div sd sma); reflexivity.
Qed.

(** The handler completes in exactly two ways: all three values absent,
    or all three computed from a present average and deviation. *)
Lemma band_values_inv (value : pyvalue T) (self : BollingerBands T)
    (u l w : pyvalue T) :
  fst (band_values value self) = Ok (u, l, w) ->
  (u = None /\ l = None /\ w = None) \/
  (exists sma sd q : T,
      getitem (out (__sma self)) (-1) = Ok (Some sma) /\
      getitem (out (__stdDev self)) (-1) = Ok (Some sd) /\
      num_div sd sma = Some q /\
      u = Some (num_add sma (num_mul sd (__numStdDev self))) /\
      l = Some (num_add sma
                  (num_mul (num_mul sd (__numStdDev self)) num_minus_one)) /\
      w = Some q).
Proof.
  unfold band_values, bind, lift, try, gets, ret.
  destruct value as [x|]; [|intros [= <- <- <-]; left; auto].
  destruct (getitem (out (__sma self)) (-1)) as [[sma|]|e] eqn:Hsma;
    [ | intros [= <- <- <-]; left; auto | discriminate ].
  destruct (getitem (out (__stdDev self)) (-1)) as [[sd|]|e] eqn:Hsd;
    [ | discriminate | discriminate ].
  simpl. destruct (num_div sd sma) as [q|] eqn:Hq; [|discriminate].
  intros [= <- <- <-]. right. exists sma, sd, q. auto 10.
Qed.

Lemma getitem_last_append (value : pyvalue T) (s : SequenceDataSeries T) :
  getitem (appendWithDateTime dateTime value s) (-1) = Ok value.
Proof.
  unfold getitem, appendWithDateTime. cbn [entries].
  set (kept := if (Pos.to_nat (maxLen s) <=? length (entries s))%nat
               then tl (entries s) else entries s).
  rewrite length_app. cbn [length].
  replace (-1 <? 0) with true by reflexivity.
  replace (-1 + Z.of_nat (length kept + 1)) with (Z.of_nat (length kept)) by lia.
  replace (Z.of_nat (length kept) <? 0) with false by (symmetry; apply Z.ltb_ge; lia).
  replace (Z.of_nat (length kept + 1) <=? Z.of_nat (length kept)) with false
    by (symmetry; apply Z.leb_gt; lia).
  rewrite Nat2Z.id. cbn [orb].
  rewrite nth_error_app2 by lia. rewrite Nat.sub_diag. reflexivity.
Qed.

(** The latest entry of a series carries the time stamp it was appended
    with. *)
Lemma last_append (value : pyvalue T) (s : SequenceDataSeries T) :
  last (entries (appendWithDateTime dateTime value s)) (0, None)
  = (dateTime, value).
Proof.
  unfold appendWithDateTime. cbn [entries]. apply last_last.
Qed.

(** The latest value of a series is that of its last entry, and asking
    an empty series for it is an IndexError. *)
Lemma getitem_latest (s : SequenceDataSeries T) :
  getitem s (-1) =
  match entries s with
  | [] => Raise IndexError
  | _ :: _ => Ok (snd (last (entries s) (0, None)))
  end.
Proof.
  destruct (entries s) as [|x l] eqn:E.
  - unfold getitem. rewrite E. reflexivity.
  - destruct (exists_last (l := x :: l)) as (l' & [t a] & E'); [discriminate|].
    rewrite E', last_last. cbn [snd].
    unfold getitem. rewrite E, E'. rewrite length_app. cbn [length].
    replace (-1 <? 0) with true by reflexivity.
    replace (-1 + Z.of_nat (length l' + 1)) with (Z.of_nat (length l')) by lia.
    replace (Z.of_nat (length l') <? 0) with false by (symmetry; apply Z.ltb_ge; lia).
    replace (Z.of_nat (length l' + 1) <=? Z.of_nat (length l')) with false
      by (symmetry; apply Z.leb_gt; lia).
    rewrite Nat2Z.id. cbn [orb].
    rewrite nth_error_app2 by lia. rewrite Nat.sub_diag. reflexivity.
Qed.

Lemma onNewValue_providers (value : pyvalue T) (b : BollingerBands T) :
  __sma (snd (__onNewValue dataSeries dateTime value b)) = __sma b /\
  __stdDev (snd (__onNewValue dataSeries dateTime value b)) = __stdDev b.
Proof.
  rewrite onNewValue_unfold.
  destruct (fst (band_values value b)) as [[[u l] w]|e]; split; reflexivity.
Qed.

(** Defined band values come from a present average and a present
    deviation, by the operations of lines 69 and 70. *)
Lemma onNewValue_defined_bands (value : pyvalue T)
    (self self' : BollingerBands T) (upper lower : T) :
  __onNewValue dataSeries dateTime value self = (Ok tt, self') ->
  getitem (getUpperBand self') (-1) = Ok (Some upper) ->
  getitem (getLowerBand self') (-1) = Ok (Some lower) ->
  exists sma stdDev : T,
    getitem (getMiddleBand self) (-1) = Ok (Some sma) /\
    getitem (getStdDev self) (-1) = Ok (Some stdDev) /\
    upper = num_add sma (num_mul stdDev (__numStdDev self)) /\
    lower = num_add sma
              (num_mul (num_mul stdDev (__numStdDev self)) num_minus_one).
Proof.
  rewrite onNewValue_unfold.
  destruct (fst (band_values value self)) as [[[u l] w]|e] eqn:Hv;
    [|discriminate].
  intros [= <-]. unfold getUpperBand, getLowerBand, getMiddleBand, getStdDev.
  cbn [__upperBand __lowerBand].
  rewrite !getitem_last_append. intros [= ->] [= ->].
  apply band_values_inv in Hv.
  destruct Hv as [(Hu & _)|(sma & sd & q & Hsma & Hsd & _ & Hu & Hl & _)];
    [discriminate|].
  injection Hu as ->. injection Hl as ->.
  exists sma, sd. auto.
Qed.

End HandlerFacts.

(** Closes one case of the table of outcomes. *)
Ltac outcome :=
  repeat split; try discriminate; intros;
  repeat match goal with
         | H : _ /\ _ |- _ => destruct H
         | H : _ \/ _ |- _ => destruct H
         | H : exists _, _ |- _ => destruct H
         | H : Ok _ = Ok _ |- _ => injection H as H; try subst
         | H : Some _ = Some _ |- _ => injection H as H; try subst
         | H : ?x <> ?x |- _ => now elim H
         end;
  try discriminate; try congruence;
  repeat match goal with
         | |- _ /\ _ => split
         | |- Some _ <> None => discriminate
         end;
  eauto 10.

(** ** The pipeline, step by step *)

Section ListFacts.

Context {A : Type}.

Lemma tl_skipn (n : nat) (l : list A) : tl (skipn n l) = skipn (S n) l.
Proof.
  revert l. induction n as [|n IH]; intros [|x l]; try reflexivity.
  cbn [skipn]. apply IH.
Qed.

Lemma bounded_snoc (c : nat) (l : list A) (x : A) :
  (1 <= c)%nat ->
  (if (c <=? length (skipn (length l - c) l))%nat
   then tl (skipn (length l - c) l) else skipn (length l - c) l) ++ [x]
  = skipn (length (l ++ [x]) - c) (l ++ [x]).
Proof.
  intros Hc. rewrite length_skipn, length_app. cbn [length].
  destruct (c <=? length l - (length l - c))%nat eqn:E.
  - apply Nat.leb_le in E.
    rewrite tl_skipn.
    replace (length l + 1 - c)%nat with (S (length l - c)) by lia.
    rewrite skipn_app.
    replace (S (length l - c) - length l)%nat with 0%nat by lia.
    reflexivity.
  - apply Nat.leb_gt in E.
    replace (length l - c)%nat with 0%nat by lia.
    replace (length l + 1 - c)%nat with 0%nat by lia.
    reflexivity.
Qed.

End ListFacts.

Section PipelineFacts.

Context {T : Type} {N : Number T}.

Variable DEFAULT_MAX_LEN : positive.

Lemma emit_app (hs1 hs2 : list handler) (ds : SequenceDataSeries T)
    (dt : datetime) (v : pyvalue T) (b : BollingerBands T) :
  emit (hs1 ++ hs2) ds dt v b =
  bind (emit hs1 ds dt v) (fun _ => emit hs2 ds dt v) b.
Proof.
  revert b. induction hs1 as [|h hs1 IH]; intros b.
  - reflexivity.
  - cbn [app emit]. unfold bind in *.
    destruct (call h ds dt v b) as [[[]|e] b1]; [apply IH|reflexivity].
Qed.

Lemma emit_foreign (fs : list handler) (ds : SequenceDataSeries T)
    (dt : datetime) (v : pyvalue T) (b : BollingerBands T) :
  forallb is_foreign fs = true -> emit fs ds dt v b = (Ok tt, b).
Proof.
  induction fs as [|h fs IH]; [reflexivity|].
  cbn [forallb]. intros [Hh Hfs]%andb_prop.
  destruct h; try discriminate. apply IH, Hfs.
Qed.

Lemma after_providers_eq (ds : SequenceDataSeries T) (dt : datetime)
    (v : pyvalue T) (b : BollingerBands T) :
  after_providers ds dt v b =
  mkBands
    (mkStat (period (__sma b))
       (appendWithDateTime dt
          (option_map (mean (period (__sma b))) (window (period (__sma b)) ds))
          (out (__sma b))))
    (mkStat (period (__stdDev b))
       (appendWithDateTime dt
          (option_map (pstdev (period (__stdDev b)))
             (window (period (__stdDev b)) ds))
          (out (__stdDev b))))
    (__upperBand b) (__lowerBand b) (__numStdDev b) (__bandWidth b).
Proof. reflexivity. Qed.

(** The fan-out over the handlers of a composite, behind any foreign
    ones, is the composite's handler run after those of its providers. *)
Lemma emit_own (fs : list handler) (ds : SequenceDataSeries T)
    (dt : datetime) (v : pyvalue T) (b : BollingerBands T) :
  forallb is_foreign fs = true ->
  emit (fs ++ own_handlers) ds dt v b =
  __onNewValue ds dt v (after_providers ds dt v b).
Proof.
  intros Hfs. rewrite emit_app. unfold bind.
  rewrite (emit_foreign _ _ _ _ _ Hfs).
  rewrite after_providers_eq.
  unfold own_handlers. cbn [emit call].
  unfold bind, zoom, statistic_onNewValue, ret. cbn [fst snd setSMA setStdDev
    __sma __stdDev __upperBand __lowerBand __numStdDev __bandWidth period out].
  destruct (__onNewValue ds dt v _) as [[[]|e] b']; reflexivity.
Qed.

Lemma init_ok (ds : Source T) (per : Z) (k : T) (ml : option positive)
    (p0 : Pipeline T) :
  __init__ DEFAULT_MAX_LEN ds per k ml = Ok p0 ->
  2 <= per /\
  p0 = mkPipeline
         (mkSource (series ds) (newValueEvent ds ++ own_handlers))
         (mkBands (mkStat per (new_series DEFAULT_MAX_LEN ml))
                  (mkStat per (new_series DEFAULT_MAX_LEN ml))
                  (new_series DEFAULT_MAX_LEN ml)
                  (new_series DEFAULT_MAX_LEN ml) k
                  (new_series DEFAULT_MAX_LEN ml)).
Proof.
  unfold __init__, ma_SMA, stats_StdDev, new_statistic.
  destruct (per <? 2) eqn:E; [discriminate|].
  apply Z.ltb_ge in E. intros [= <-]. split; [exact E|].
  unfold subscribe, own_handlers. cbn [series newValueEvent].
  rewrite <- !app_assoc. reflexivity.
Qed.

Lemma init_wired (ds : Source T) (per : Z) (k : T) (ml : option positive)
    (p0 : Pipeline T) :
  forallb is_foreign (newValueEvent ds) = true ->
  __init__ DEFAULT_MAX_LEN ds per k ml = Ok p0 ->
  wired per p0.
Proof.
  intros Hfs [_ ->]%init_ok. exists (newValueEvent ds). auto.
Qed.

(** On a wired pipeline an append to the source stores the tick, runs
    the providers, and then runs the composite's handler. *)
Lemma source_append_wired (per : Z) (p : Pipeline T) (dt : datetime)
    (v : pyvalue T) :
  wired per p ->
  let stored := appendWithDateTime dt v (series (source p)) in
  let b := after_providers stored dt v (self p) in
  source_append dt v p =
  (fst (__onNewValue stored dt v b),
   mkPipeline (mkSource stored (newValueEvent (source p)))
              (snd (__onNewValue stored dt v b))).
Proof.
  intros (fs & Hfs & Hev & _). cbv zeta. unfold source_append.
  rewrite Hev at 1. rewrite (emit_own _ _ _ _ _ Hfs).
  destruct (__onNewValue _ dt v _) as [r b']. reflexivity.
Qed.

Lemma wired_step (per : Z) (p : Pipeline T) (dt : datetime) (v : pyvalue T) :
  wired per p -> wired per (snd (source_append dt v p)).
Proof.
  intros W. rewrite (source_append_wired per p dt v W). cbn [snd].
  destruct W as (fs & Hfs & Hev & Hp1 & Hp2).
  exists fs. cbn [source self newValueEvent].
  destruct (onNewValue_providers
              (appendWithDateTime dt v (series (source p))) dt v
              (after_providers
                 (appendWithDateTime dt v (series (source p))) dt v (self p)))
    as [-> ->].
  rewrite after_providers_eq. cbn [__sma __stdDev period]. auto.
Qed.

Lemma wired_evolves (per : Z) (p0 p : Pipeline T) :
  wired per p0 -> evolves source_append p0 p -> wired per p.
Proof.
  intros W E. induction E as [|p dt v E IH]; [exact W|].
  apply wired_step, IH.
Qed.

Lemma grown_refl (s : SequenceDataSeries T) : grown 0 s s.
Proof. split; [reflexivity|]. intros H. rewrite Nat.add_0_r. lia. Qed.

Lemma grown_append (dt : datetime) (v : pyvalue T)
    (s : SequenceDataSeries T) :
  grown 1 s (appendWithDateTime dt v s).
Proof.
  split; [reflexivity|]. intros H.
  unfold appendWithDateTime. cbn [entries]. rewrite length_app. cbn [length].
  destruct (Pos.to_nat (maxLen s) <=? length (entries s))%nat eqn:E.
  - apply Nat.leb_le in E. pose proof (Pos2Nat.is_pos (maxLen s)).
    destruct (entries s) as [|x l]; cbn [length tl] in *; lia.
  - apply Nat.leb_gt in E. lia.
Qed.

Lemma grown_trans (n m : nat) (s1 s2 s3 : SequenceDataSeries T) :
  grown n s1 s2 -> grown m s2 s3 -> grown (n + m) s1 s3.
Proof.
  intros [C12 L12] [C23 L23]. split; [congruence|].
  intros H. specialize (L12 H). rewrite C12 in L23.
  rewrite L23 by lia. rewrite L12. lia.
Qed.

(** Every append to the source that returns has made the composite's
    handler append once to each output series. *)
Lemma source_append_grown (per : Z) (p p' : Pipeline T) (dt : datetime)
    (v : pyvalue T) :
  wired per p ->
  source_append dt v p = (Ok tt, p') ->
  grown 1 (__upperBand (self p)) (__upperBand (self p')) /\
  grown 1 (__lowerBand (self p)) (__lowerBand (self p')) /\
  grown 1 (__bandWidth (self p)) (__bandWidth (self p')).
Proof.
  intros W. rewrite (source_append_wired per p dt v W).
  rewrite onNewValue_unfold, after_providers_eq.
  destruct (fst (band_values v _)) as [[[u l] w]|e]; cbn [fst snd];
    [|discriminate].
  intros [= <-]. cbn [self __upperBand __lowerBand __bandWidth].
  repeat split; apply grown_append.
Qed.

Lemma feed_grown (per : Z) (ticks : list (datetime * pyvalue T)) :
  forall p p' : Pipeline T,
    wired per p ->
    feed ticks p = (Ok tt, p') ->
    grown (length ticks) (__upperBand (self p)) (__upperBand (self p')) /\
    grown (length ticks) (__lowerBand (self p)) (__lowerBand (self p')) /\
    grown (length ticks) (__bandWidth (self p)) (__bandWidth (self p')).
Proof.
  induction ticks as [|[dt v] ticks IH]; intros p p' W.
  - intros [= <-]. repeat split; apply grown_refl.
  - cbn [feed length]. unfold bind.
    destruct (source_append dt v p) as [[[]|e] p1] eqn:E; [|discriminate].
    intros F.
    pose proof (wired_step per p dt v W) as W1. rewrite E in W1. cbn [snd] in W1.
    destruct (source_append_grown per p p1 dt v W E) as (U1 & L1 & B1).
    destruct (IH p1 p' W1 F) as (U & L & B).
    change (S (length ticks)) with (1 + length ticks)%nat.
    repeat split; eapply grown_trans; eassumption.
Qed.

Lemma map_append {A : Type} (f : datetime * pyvalue T -> A) (dt : datetime)
    (v : pyvalue T) (s : SequenceDataSeries T) :
  map f (entries (appendWithDateTime dt v s)) =
  (if (Pos.to_nat (maxLen s) <=? length (map f (entries s)))%nat
   then tl (map f (entries s)) else map f (entries s)) ++ [f (dt, v)].
Proof.
  unfold appendWithDateTime. cbn [entries].
  rewrite map_app, length_map. cbn [map].
  destruct (Pos.to_nat (maxLen s) <=? length (entries s))%nat;
    [|reflexivity].
  destruct (entries s); reflexivity.
Qed.

(** Appending to a series appends to its shape. *)
Lemma shape_append (dt : datetime) (v : pyvalue T)
    (s : SequenceDataSeries T) :
  shape (appendWithDateTime dt v s) =
  (if (Pos.to_nat (maxLen s) <=? length (shape s))%nat
   then tl (shape s) else shape s) ++ [(dt, is_present v)].
Proof. unfold shape. apply map_append. Qed.

(** The handler keeps the three output series aligned, whether it
    completes or raises. *)
Lemma onNewValue_aligned (ds : SequenceDataSeries T) (dt : datetime)
    (v : pyvalue T) (b : BollingerBands T) :
  outputs_aligned b -> outputs_aligned (snd (__onNewValue ds dt v b)).
Proof.
  intros (C1 & C2 & S1 & S2). rewrite onNewValue_unfold.
  destruct (fst (band_values v b)) as [[[u l] w]|e] eqn:Hv; cbn [snd];
    [|repeat split; assumption].
  assert (P : is_present u = is_present l /\ is_present l = is_present w).
  { apply band_values_inv in Hv.
    destruct Hv as [(-> & -> & ->)|(m & s & q & _ & _ & _ & -> & -> & ->)];
      split; reflexivity. }
  destruct P as [P1 P2].
  unfold outputs_aligned. cbn [__upperBand __lowerBand __bandWidth].
  rewrite !shape_append. cbn [appendWithDateTime maxLen].
  rewrite C1, C2, S1, S2, P1, P2. auto.
Qed.

Lemma call_aligned (h : handler) (ds : SequenceDataSeries T) (dt : datetime)
    (v : pyvalue T) (b : BollingerBands T) :
  outputs_aligned b -> outputs_aligned (snd (call h ds dt v b)).
Proof.
  intros A. destruct h; try exact A. apply onNewValue_aligned, A.
Qed.

Lemma emit_aligned (hs : list handler) (ds : SequenceDataSeries T)
    (dt : datetime) (v : pyvalue T) :
  forall b, outputs_aligned b ->
            outputs_aligned (snd (emit hs ds dt v b)).
Proof.
  induction hs as [|h hs IH]; intros b A; [exact A|].
  cbn [emit]. unfold bind.
  pose proof (call_aligned h ds dt v b A) as A1.
  destruct (call h ds dt v b) as [[[]|e] b1]; cbn [snd] in *;
    [apply IH, A1|exact A1].
Qed.

Lemma tracks_append (c : positive) (stamps : list datetime) (dt : datetime)
    (v : pyvalue T) (s : SequenceDataSeries T) :
  tracks c stamps s -> tracks c (stamps ++ [dt]) (appendWithDateTime dt v s).
Proof.
  intros [Hc HT]. split; [exact Hc|].
  rewrite map_append, Hc, HT. cbn [fst].
  apply bounded_snoc. pose proof (Pos2Nat.is_pos c). lia.
Qed.

Lemma consistent_length (k : T)
    (ms ss us ls ws : list (datetime * pyvalue T)) :
  consistent k ms ss us ls ws ->
  length ss = length ms /\ length us = length ms /\
  length ls = length ms /\ length ws = length ms.
Proof.
  induction 1 as [|m s u l w ms ss us ls ws _ _ (A & B & C & D)];
    cbn [length]; auto.
Qed.

Lemma consistent_tl (k : T) (ms ss us ls ws : list (datetime * pyvalue T)) :
  consistent k ms ss us ls ws ->
  consistent k (tl ms) (tl ss) (tl us) (tl ls) (tl ws).
Proof. destruct 1; [constructor|assumption]. Qed.

Lemma consistent_snoc (k : T) (ms ss us ls ws : list (datetime * pyvalue T))
    (m s u l w : datetime * pyvalue T) :
  consistent k ms ss us ls ws ->
  row_ok k m s u l w ->
  consistent k (ms ++ [m]) (ss ++ [s]) (us ++ [u]) (ls ++ [l]) (ws ++ [w]).
Proof.
  intros H R. induction H; cbn [app].
  - constructor; [exact R|constructor].
  - constructor; assumption.
Qed.

Lemma consistent_nth (k : T) (ms ss us ls ws : list (datetime * pyvalue T)) :
  consistent k ms ss us ls ws ->
  forall (i : nat) (u : datetime * pyvalue T),
    nth_error us i = Some u ->
    exists m s l w : datetime * pyvalue T,
      nth_error ms i = Some m /\ nth_error ss i = Some s /\
      nth_error ls i = Some l /\ nth_error ws i = Some w /\
      row_ok k m s u l w.
Proof.
  induction 1 as [|m s u l w ms ss us ls ws R _ IH]; intros [|i] u0 Hu;
    cbn [nth_error] in *; try discriminate.
  - injection Hu as <-. exists m, s, l, w. auto.
  - apply IH, Hu.
Qed.

Lemma consistent_dateTimes (k : T)
    (ms ss us ls ws : list (datetime * pyvalue T)) :
  consistent k ms ss us ls ws ->
  map fst ss = map fst ms /\ map fst us = map fst ms /\
  map fst ls = map fst ms /\ map fst ws = map fst ms.
Proof.
  induction 1 as [|m s u l w ms ss us ls ws (A & B & C & D & _) _
                    (IA & IB & IC & ID)]; cbn [map]; [auto|].
  rewrite A, B, C, D, IA, IB, IC, ID. auto.
Qed.

(** What an append that returns leaves in the composite: one entry in
    each of the five series, and the five agree. *)
Lemma source_append_ok (per : Z) (p p' : Pipeline T) (dt : datetime)
    (v : pyvalue T) :
  wired per p ->
  source_append dt v p = (Ok tt, p') ->
  wired per p' /\
  exists m s u l w : pyvalue T,
    self p' =
    mkBands
      (mkStat (period (__sma (self p)))
              (appendWithDateTime dt m (out (__sma (self p)))))
      (mkStat (period (__stdDev (self p)))
              (appendWithDateTime dt s (out (__stdDev (self p)))))
      (appendWithDateTime dt u (__upperBand (self p)))
      (appendWithDateTime dt l (__lowerBand (self p)))
      (__numStdDev (self p))
      (appendWithDateTime dt w (__bandWidth (self p))) /\
    row_ok (__numStdDev (self p)) (dt, m) (dt, s) (dt, u) (dt, l) (dt, w).
Proof.
  intros W H. split.
  { pose proof (wired_step per p dt v W) as W1.
    rewrite H in W1. exact W1. }
  rewrite (source_append_wired per p dt v W) in H.
  rewrite onNewValue_unfold in H.
  set (stored := appendWithDateTime dt v (series (source p))) in *.
  destruct (fst (band_values v (after_providers stored dt v (self p))))
    as [[[u l] w]|e] eqn:Hv; cbn [fst snd] in H; [|discriminate].
  injection H as <-. cbn [self].
  rewrite after_providers_eq in *.
  cbn [__sma __stdDev __upperBand __lowerBand __numStdDev __bandWidth].
  do 5 eexists. split; [reflexivity|].
  apply band_values_inv in Hv.
  cbn [__sma __stdDev __numStdDev out] in Hv.
  rewrite !getitem_last_append in Hv.
  unfold row_ok. cbn [fst snd]. repeat split.
  destruct Hv as [(-> & -> & ->)|(a & b & q & Ha & Hb & Hq & -> & -> & ->)].
  - split; reflexivity.
  - injection Ha as Ha. injection Hb as Hb.
    exists a, b, q. repeat split; assumption.
Qed.

Lemma feed_history (per : Z) (c : positive)
    (ticks : list (datetime * pyvalue T)) :
  forall (p p' : Pipeline T) (stamps : list datetime),
    wired per p ->
    feed ticks p = (Ok tt, p') ->
    history_ok c (self p) ->
    tracks c stamps (out (__sma (self p))) ->
    history_ok c (self p') /\
    tracks c (stamps ++ map fst ticks) (out (__sma (self p'))) /\
    __numStdDev (self p') = __numStdDev (self p).
Proof.
  induction ticks as [|[dt v] ticks IH]; intros p p' stamps W F H Tr.
  - injection F as <-. cbn [map]. rewrite app_nil_r. auto.
  - cbn [feed] in F. unfold bind in F.
    destruct (source_append dt v p) as [[[]|e] p1] eqn:E; [|discriminate].
    destruct (source_append_ok per p p1 dt v W E)
      as (W1 & m & s & u & l & w & Hp1 & R).
    destruct H as (C1 & C2 & C3 & C4 & C5 & Hc).
    assert (H1 : history_ok c (self p1)).
    { rewrite Hp1. unfold history_ok.
      cbn [__sma __stdDev __upperBand __lowerBand __bandWidth __numStdDev out].
      repeat split; try assumption.
      destruct (consistent_length _ _ _ _ _ _ Hc) as (L2 & L3 & L4 & L5).
      unfold appendWithDateTime. cbn [entries].
      rewrite C1, C2, C3, C4, C5, L2, L3, L4, L5.
      destruct (Pos.to_nat c <=? length (entries (out (__sma (self p)))))%nat.
      - apply consistent_snoc; [apply consistent_tl, Hc|exact R].
      - apply consistent_snoc; [exact Hc|exact R]. }
    assert (Tr1 : tracks c (stamps ++ [dt]) (out (__sma (self p1)))).
    { rewrite Hp1. cbn [__sma out]. apply tracks_append, Tr. }
    destruct (IH p1 p' (stamps ++ [dt]) W1 F H1 Tr1) as (H' & Tr' & K').
    split; [exact H'|]. split.
    + cbn [map fst]. rewrite <- app_assoc in Tr'. exact Tr'.
    + rewrite K', Hp1. reflexivity.
Qed.

Lemma init_history (ds : Source T) (per : Z) (k : T) (ml : option positive)
    (p0 : Pipeline T) :
  __init__ DEFAULT_MAX_LEN ds per k ml = Ok p0 ->
  let c := match ml with Some m => m | None => DEFAULT_MAX_LEN end in
  history_ok c (self p0) /\ tracks c [] (out (__sma (self p0))) /\
  __numStdDev (self p0) = k.
Proof.
  intros [_ ->]%init_ok. cbv zeta. unfold history_ok, tracks.
  cbn [self __sma __stdDev __upperBand __lowerBand __bandWidth __numStdDev
       out new_series maxLen entries].
  repeat split. constructor.
Qed.

End PipelineFacts.

(** ** Properties of the handler *)

Section HandlerClaims.

Context {T : Type} {N : Number T}.

(** C1 (amended).  For every notification in which the source value is
    present, the latest value [sma] of the moving average is present,
    the latest value [sd] of the moving standard deviation is present
    and the division [sd / sma] returns a value, the handler appends
    [sma + sd * numStdDev] to the upper band,
    [sma + sd * numStdDev * -1] to the lower band and the value of
    [sd / sma] to the band width, each with the time stamp of the
    notification, and changes nothing else. *)
Theorem onNewValue_appends_bands (dataSeries : SequenceDataSeries T)
    (dateTime : datetime) (x sma sd width : T) (self : BollingerBands T) :
  getitem (out (__sma self)) (-1) = Ok (Some sma) ->
  getitem (out (__stdDev self)) (-1) = Ok (Some sd) ->
  num_div sd sma = Some width ->
  __onNewValue dataSeries dateTime (Some x) self =
  (Ok tt,
   mkBands (__sma self) (__stdDev self)
     (appendWithDateTime dateTime
        (Some (num_add sma (num_mul sd (__numStdDev self))))
        (__upperBand self))
     (appendWithDateTime dateTime
        (Some (num_add sma
                 (num_mul (num_mul sd (__numStdDev self)) num_minus_one)))
        (__lowerBand self))
     (__numStdDev self)
     (appendWithDateTime dateTime (Some width) (__bandWidth self))).
Proof.
  intros Hsma Hsd Hdiv.
  rewrite onNewValue_unfold.
  rewrite (band_values_present x sma sd self Hsma Hsd), Hdiv.
  reflexivity.
Qed.

(** C2.  When the source value is absent, or the latest value of the
    moving average is absent, the handler appends an absent value to the
    upper band, the lower band and the band width, and leaves the moving
    average, which is the middle band, as it is. *)
Theorem onNewValue_appends_absent (dataSeries : SequenceDataSeries T)
    (dateTime : datetime) (value : pyvalue T) (self : BollingerBands T) :
  value = None \/ getitem (out (__sma self)) (-1) = Ok None ->
  __onNewValue dataSeries dateTime value self =
  (Ok tt,
   mkBands (__sma self) (__stdDev self)
     (appendWithDateTime dateTime None (__upperBand self))
     (appendWithDateTime dateTime None (__lowerBand self))
     (__numStdDev self)
     (appendWithDateTime dateTime None (__bandWidth self))) /\
  getMiddleBand (snd (__onNewValue dataSeries dateTime value self))
  = getMiddleBand self.
Proof.
  intros H.
  assert (Hv : fst (band_values value self) = Ok (None, None, None)).
  { unfold band_values, bind, lift, ret.
    destruct value as [x|]; [|reflexivity].
    destruct H as [H|H]; [discriminate|]. rewrite H. reflexivity. }
  rewrite onNewValue_unfold, Hv. split; reflexivity.
Qed.

(** C4 (amended).  When the source value is present and the latest
    average and deviation are numbers, in particular when the average
    is 0, the handler has no policy of its own and does what the
    division [sd / sma] of these numbers does: where the division
    raises ZeroDivisionError, an ArithmeticError, the handler raises it
    and appends nothing; where the division returns a value, the
    handler appends that value to the band width, with the upper and
    lower values. *)
Theorem onNewValue_follows_division (dataSeries : SequenceDataSeries T)
    (dateTime : datetime) (x sma sd : T) (self : BollingerBands T) :
  getitem (out (__sma self)) (-1) = Ok (Some sma) ->
  getitem (out (__stdDev self)) (-1) = Ok (Some sd) ->
  __onNewValue dataSeries dateTime (Some x) self =
  match num_div sd sma with
  | None => (Raise ZeroDivisionError, self)
  | Some width =>
      (Ok tt,
       mkBands (__sma self) (__stdDev self)
         (appendWithDateTime dateTime
            (Some (num_add sma (num_mul sd (__numStdDev self))))
            (__upperBand self))
         (appendWithDateTime dateTime
            (Some (num_add sma
                     (num_mul (num_mul sd (__numStdDev self)) num_minus_one)))
            (__lowerBand self))
         (__numStdDev self)
         (appendWithDateTime dateTime (Some width) (__bandWidth self)))
  end /\
  is_ArithmeticError ZeroDivisionError = true.
Proof.
  intros Hsma Hsd. split; [|reflexivity].
  rewrite onNewValue_unfold.
  rewrite (band_values_present x sma sd self Hsma Hsd).
  destruct (num_div sd sma); reflexivity.
Qed.

(** C10.  When the source value and the latest moving average are
    present but the latest standard deviation is absent, the handler
    raises TypeError at [stdDev * numStdDev] and appends nothing; so a
    handler that completes on a present value and a present average has
    found the standard deviation defined. *)
Theorem onNewValue_absent_deviation (dataSeries : SequenceDataSeries T)
    (dateTime : datetime) (x sma : T) (self : BollingerBands T) :
  getitem (out (__sma self)) (-1) = Ok (Some sma) ->
  (getitem (out (__stdDev self)) (-1) = Ok None ->
   __onNewValue dataSeries dateTime (Some x) self = (Raise TypeError, self)) /\
  (forall self',
      __onNewValue dataSeries dateTime (Some x) self = (Ok tt, self') ->
      exists sd : T, getitem (out (__stdDev self)) (-1) = Ok (Some sd)).
Proof.
  intros Hsma. rewrite onNewValue_unfold.
  unfold band_values, bind, lift, try, gets, ret. rewrite Hsma.
  destruct (getitem (out (__stdDev self)) (-1)) as [[sd|]|e]; simpl.
  - split; [discriminate|]. intros _ _. now exists sd.
  - split; [reflexivity|discriminate].
  - split; discriminate.
Qed.

(** X1.  The outcomes of the handler.  It completes exactly when the
    value is absent, or the latest average is absent, or the latest
    average and deviation are numbers whose division returns.  On a
    present value it raises IndexError exactly when the average series
    is empty, or the average is a number and the deviation series is
    empty; TypeError exactly when the average is a number and the latest
    deviation is absent; ZeroDivisionError exactly when the average and
    the deviation are numbers whose division raises; and never anything
    else. *)
Theorem onNewValue_outcomes (dataSeries : SequenceDataSeries T)
    (dateTime : datetime) (value : pyvalue T) (self : BollingerBands T) :
  let r := fst (__onNewValue dataSeries dateTime value self) in
  let sma := getitem (out (__sma self)) (-1) in
  let stdDev := getitem (out (__stdDev self)) (-1) in
  (r = Ok tt <->
   value = None \/ sma = Ok None \/
   exists m s q : T,
     sma = Ok (Some m) /\ stdDev = Ok (Some s) /\ num_div s m = Some q) /\
  (r = Raise IndexError <->
   value <> None /\
   (entries (out (__sma self)) = [] \/
    (exists m : T, sma = Ok (Some m)) /\ entries (out (__stdDev self)) = [])) /\
  (r = Raise TypeError <->
   value <> None /\ (exists m : T, sma = Ok (Some m)) /\ stdDev = Ok None) /\
  (r = Raise ZeroDivisionError <->
   value <> None /\
   exists m s : T,
     sma = Ok (Some m) /\ stdDev = Ok (Some s) /\ num_div s m = None) /\
  r <> Raise ConfigError.
Proof.
  cbv zeta. rewrite onNewValue_unfold.
  unfold band_values, bind, lift, try, gets, ret.
  pose proof (getitem_latest (out (__sma self))) as Hm.
  pose proof (getitem_latest (out (__stdDev self))) as Hs.
  destruct value as [x|]; [|cbn; outcome].
  destruct (getitem (out (__sma self)) (-1)) as [[m|]|e1];
    destruct (entries (out (__sma self))) as [|a1 l1]; try discriminate;
    [clear Hm | clear Hm; cbn; outcome | injection Hm as ->; cbn; outcome].
  destruct (getitem (out (__stdDev self)) (-1)) as [[s|]|e2];
    destruct (entries (out (__stdDev self))) as [|a2 l2]; try discriminate;
    [clear Hs | clear Hs; cbn; outcome | injection Hs as ->; cbn; outcome].
  cbn. destruct (num_div s m) as [q|] eqn:Hq; cbn; outcome.
Qed.

(** X5.  The handler reads its composite only through the latest value
    of the average, the latest value of the deviation and numStdDev:
    two composites that agree on these three have the same outcome and
    are appended the same three values, whatever the source series
    passed to the handler and the earlier entries of the providers. *)
Theorem onNewValue_reads_latest_only (ds1 ds2 : SequenceDataSeries T)
    (dateTime : datetime) (value : pyvalue T) (self1 self2 : BollingerBands T) :
  getitem (out (__sma self1)) (-1) = getitem (out (__sma self2)) (-1) ->
  getitem (out (__stdDev self1)) (-1) = getitem (out (__stdDev self2)) (-1) ->
  __numStdDev self1 = __numStdDev self2 ->
  let r1 := __onNewValue ds1 dateTime value self1 in
  let r2 := __onNewValue ds2 dateTime value self2 in
  fst r1 = fst r2 /\
  (fst r1 = Ok tt ->
   getitem (getUpperBand (snd r1)) (-1) = getitem (getUpperBand (snd r2)) (-1) /\
   getitem (getLowerBand (snd r1)) (-1) = getitem (getLowerBand (snd r2)) (-1) /\
   getitem (getBandWidth (snd r1)) (-1)
   = getitem (getBandWidth (snd r2)) (-1)).
Proof.
  intros Hm Hs Hk. cbv zeta. rewrite !onNewValue_unfold.
  assert (E : fst (band_values value self1) = fst (band_values value self2)).
  { unfold band_values, bind, lift, try, gets, ret.
    destruct value as [x|]; [|reflexivity].
    rewrite Hm. destruct (getitem (out (__sma self2)) (-1)) as [[m|]|e1];
      try reflexivity.
    cbv beta. rewrite Hs, Hk.
    destruct (getitem (out (__stdDev self2)) (-1)) as [[s|]|e2];
      try reflexivity.
    cbn. destruct (num_div s m); reflexivity. }
  rewrite E.
  destruct (fst (band_values value self2)) as [[[u l] w]|e]; cbn [fst snd].
  - split; [reflexivity|]. intros _.
    unfold getUpperBand, getLowerBand, getBandWidth.
    cbn [__upperBand __lowerBand __bandWidth].
    rewrite !getitem_last_append. auto.
  - split; [reflexivity|discriminate].
Qed.

End HandlerClaims.

(** ** Properties of the pipeline *)

Section PipelineClaims.

Context {T : Type} {N : Number T}.

Variable DEFAULT_MAX_LEN : positive.

(** C5 (amended).  After n appends to the source that all return, each
    of the upper-band, lower-band and band-width series holds exactly
    min(n, maxLen) entries, where a [maxLen] of [None] stands for
    [DEFAULT_MAX_LEN]: one entry per tick, absent ones included, the
    oldest being discarded once the maximum length is reached. *)
Theorem output_lengths (ds : Source T) (per : Z) (k : T)
    (ml : option positive) (ticks : list (datetime * pyvalue T))
    (p0 p : Pipeline T) :
  forallb is_foreign (newValueEvent ds) = true ->
  __init__ DEFAULT_MAX_LEN ds per k ml = Ok p0 ->
  feed ticks p0 = (Ok tt, p) ->
  let cap := Pos.to_nat (match ml with
                         | Some m => m
                         | None => DEFAULT_MAX_LEN
                         end) in
  length (entries (getUpperBand (self p))) = Nat.min (length ticks) cap /\
  length (entries (getLowerBand (self p))) = Nat.min (length ticks) cap /\
  length (entries (getBandWidth (self p))) = Nat.min (length ticks) cap.
Proof.
  intros Hfs Hinit Hfeed cap.
  pose proof (init_wired DEFAULT_MAX_LEN ds per k ml p0 Hfs Hinit) as W.
  destruct (feed_grown per ticks p0 p W Hfeed) as ([_ U] & [_ L] & [_ B]).
  apply init_ok in Hinit. destruct Hinit as [_ ->].
  cbn [self __upperBand __lowerBand __bandWidth new_series entries maxLen
       length] in U, L, B.
  unfold getUpperBand, getLowerBand, getBandWidth.
  repeat split; [apply U|apply L|apply B]; lia.
Qed.

(** C6.  [__init__] subscribes the composite's handler to the source
    behind those of the moving average and of the standard deviation,
    which it has constructed first; so on every later append to the
    source the composite's handler runs on a state in which the latest
    entry of both statistics carries the time stamp of the current tick
    and the value computed over the window that ends with it. *)
Theorem handler_reads_current_statistics (ds : Source T) (per : Z) (k : T)
    (ml : option positive) (p0 p : Pipeline T) (dt : datetime)
    (v : pyvalue T) :
  forallb is_foreign (newValueEvent ds) = true ->
  __init__ DEFAULT_MAX_LEN ds per k ml = Ok p0 ->
  evolves source_append p0 p ->
  newValueEvent (source p0)
  = newValueEvent ds
    ++ [SMA_onNewValue; StdDev_onNewValue; Bollinger_onNewValue] /\
  let stored := appendWithDateTime dt v (series (source p)) in
  let b := after_providers stored dt v (self p) in
  source_append dt v p =
  (fst (__onNewValue stored dt v b),
   mkPipeline (mkSource stored (newValueEvent (source p)))
              (snd (__onNewValue stored dt v b))) /\
  last (entries stored) (0, None) = (dt, v) /\
  last (entries (getMiddleBand b)) (0, None)
  = (dt, option_map (mean per) (window per stored)) /\
  last (entries (getStdDev b)) (0, None)
  = (dt, option_map (pstdev per) (window per stored)) /\
  getitem (getMiddleBand b) (-1)
  = Ok (option_map (mean per) (window per stored)) /\
  getitem (getStdDev b) (-1)
  = Ok (option_map (pstdev per) (window per stored)).
Proof.
  intros Hfs Hinit Hev.
  pose proof (init_wired DEFAULT_MAX_LEN ds per k ml p0 Hfs Hinit) as W0.
  pose proof (wired_evolves per p0 p W0 Hev) as W.
  split.
  { apply init_ok in Hinit. destruct Hinit as [_ ->]. reflexivity. }
  cbv zeta. split; [apply (source_append_wired per p dt v W)|].
  destruct W as (fs & _ & _ & P1 & P2).
  rewrite after_providers_eq. unfold getMiddleBand, getStdDev.
  cbn [__sma __stdDev out]. rewrite P1, P2.
  rewrite !last_append, !getitem_last_append. auto.
Qed.

(** C7.  Constructing a BollingerBands, a moving average or a moving
    standard deviation fails with ConfigError exactly when period < 2:
    a failure is a ConfigError on a period below 2, and a success has a
    period of at least 2. *)
Theorem period_validated (ds : Source T) (per : Z) (k : T)
    (ml : option positive) :
  match __init__ DEFAULT_MAX_LEN ds per k ml with
  | Ok _ => 2 <= per
  | Raise e => e = ConfigError /\ per < 2
  end /\
  match ma_SMA DEFAULT_MAX_LEN ds per ml with
  | Ok _ => 2 <= per
  | Raise e => e = ConfigError /\ per < 2
  end /\
  match stats_StdDev DEFAULT_MAX_LEN ds per ml with
  | Ok _ => 2 <= per
  | Raise e => e = ConfigError /\ per < 2
  end.
Proof.
  unfold __init__, ma_SMA, stats_StdDev, new_statistic.
  destruct (per <? 2) eqn:E.
  - apply Z.ltb_lt in E. auto.
  - apply Z.ltb_ge in E. auto.
Qed.

(** C8.  An exception raised inside the handler is not caught: the
    handler ends with it having appended nothing, the fan-out ends with
    it without running the handlers subscribed behind, and the append to
    the source ends with it, the upper-band, lower-band and band-width
    series being as they were before the tick. *)
Theorem raise_surfaces_without_append (ds : SequenceDataSeries T)
    (dt : datetime) (v : pyvalue T) (b b' : BollingerBands T) (e : exn) :
  __onNewValue ds dt v b = (Raise e, b') ->
  b' = b /\
  (forall rest : list handler,
      emit (Bollinger_onNewValue :: rest) ds dt v b = (Raise e, b)) /\
  (forall (per : Z) (p : Pipeline T),
      wired per p ->
      ds = appendWithDateTime dt v (series (source p)) ->
      b = after_providers ds dt v (self p) ->
      fst (source_append dt v p) = Raise e /\
      getUpperBand (self (snd (source_append dt v p)))
      = getUpperBand (self p) /\
      getLowerBand (self (snd (source_append dt v p)))
      = getLowerBand (self p) /\
      getBandWidth (self (snd (source_append dt v p)))
      = getBandWidth (self p)).
Proof.
  intros H.
  assert (Hb : b' = b).
  { rewrite onNewValue_unfold in H.
    destruct (fst (band_values v b)) as [[[u l] w]|e0]; [discriminate|].
    now injection H. }
  subst b'. split; [reflexivity|]. split.
  - intros rest. cbn [emit call]. unfold bind. rewrite H. reflexivity.
  - intros per p W -> ->.
    rewrite (source_append_wired per p dt v W), H. cbn [fst snd self].
    rewrite after_providers_eq. repeat split; reflexivity.
Qed.

(** X6.  From [__init__] on, whatever is appended to the source and
    whether the appends raise or not, the upper band, the lower band
    and the band width hold the same time stamps in the same order and
    have their values present at the same places. *)
Theorem outputs_stay_aligned (ds : Source T) (per : Z) (k : T)
    (ml : option positive) (p0 p : Pipeline T) :
  __init__ DEFAULT_MAX_LEN ds per k ml = Ok p0 ->
  evolves source_append p0 p ->
  shape (getUpperBand (self p)) = shape (getLowerBand (self p)) /\
  shape (getLowerBand (self p)) = shape (getBandWidth (self p)).
Proof.
  intros Hinit Hev.
  assert (A : outputs_aligned (self p)).
  { induction Hev as [|p dt v Hev IH].
    - apply init_ok in Hinit. destruct Hinit as [_ ->].
      repeat split; reflexivity.
    - unfold source_append.
      pose proof (emit_aligned (newValueEvent (source p))
                    (appendWithDateTime dt v (series (source p))) dt v
                    (self p) IH) as A.
      destruct (emit _ _ dt v (self p)) as [r b]. exact A. }
  destruct A as (_ & _ & S1 & S2). split; assumption.
Qed.

(** X7.  After appends to the source that all return, the moving
    average, the standard deviation and the three output series each
    hold the time stamps of the last min(n, maxLen) ticks, in the order
    of the ticks. *)
Theorem series_hold_recent_ticks (ds : Source T) (per : Z) (k : T)
    (ml : option positive) (ticks : list (datetime * pyvalue T))
    (p0 p : Pipeline T) :
  forallb is_foreign (newValueEvent ds) = true ->
  __init__ DEFAULT_MAX_LEN ds per k ml = Ok p0 ->
  feed ticks p0 = (Ok tt, p) ->
  let cap := Pos.to_nat (match ml with
                         | Some m => m
                         | None => DEFAULT_MAX_LEN
                         end) in
  let recent := skipn (length ticks - cap) (map fst ticks) in
  map fst (entries (getMiddleBand (self p))) = recent /\
  map fst (entries (getStdDev (self p))) = recent /\
  map fst (entries (getUpperBand (self p))) = recent /\
  map fst (entries (getLowerBand (self p))) = recent /\
  map fst (entries (getBandWidth (self p))) = recent.
Proof.
  intros Hfs Hinit Hfeed cap recent.
  pose proof (init_wired DEFAULT_MAX_LEN ds per k ml p0 Hfs Hinit) as W.
  destruct (init_history DEFAULT_MAX_LEN ds per k ml p0 Hinit)
    as (H0 & T0 & _).
  destruct (feed_history per _ ticks p0 p [] W Hfeed H0 T0)
    as ((_ & _ & _ & _ & _ & Hc) & [_ Tr] & _).
  cbn [app] in Tr. rewrite length_map in Tr. fold cap in Tr. fold recent in Tr.
  destruct (consistent_dateTimes _ _ _ _ _ _ Hc) as (A & B & C & D).
  unfold getMiddleBand, getStdDev, getUpperBand, getLowerBand, getBandWidth.
  rewrite A, B, C, D. auto.
Qed.

(** X8.  After appends to the source that all return, every defined
    value stored in the upper band sits at the index and time stamp of
    a defined average sma and a defined deviation sd whose division
    returned, and equals sma + sd * numStdDev, while the lower band
    holds sma + sd * numStdDev * -1 and the band width holds the value
    of sd / sma at that index and time stamp. *)
Theorem stored_bands_consistent (ds : Source T) (per : Z) (k : T)
    (ml : option positive) (ticks : list (datetime * pyvalue T))
    (p0 p : Pipeline T) (i : nat) (t : datetime) (upper : T) :
  forallb is_foreign (newValueEvent ds) = true ->
  __init__ DEFAULT_MAX_LEN ds per k ml = Ok p0 ->
  feed ticks p0 = (Ok tt, p) ->
  nth_error (entries (getUpperBand (self p))) i = Some (t, Some upper) ->
  exists sma sd width : T,
    nth_error (entries (getMiddleBand (self p))) i = Some (t, Some sma) /\
    nth_error (entries (getStdDev (self p))) i = Some (t, Some sd) /\
    num_div sd sma = Some width /\
    upper = num_add sma (num_mul sd k) /\
    nth_error (entries (getLowerBand (self p))) i
    = Some (t, Some (num_add sma (num_mul (num_mul sd k) num_minus_one))) /\
    nth_error (entries (getBandWidth (self p))) i = Some (t, Some width).
Proof.
  intros Hfs Hinit Hfeed Hu.
  pose proof (init_wired DEFAULT_MAX_LEN ds per k ml p0 Hfs Hinit) as W.
  destruct (init_history DEFAULT_MAX_LEN ds per k ml p0 Hinit)
    as (H0 & T0 & K0).
  destruct (feed_history per _ ticks p0 p [] W Hfeed H0 T0)
    as ((_ & _ & _ & _ & _ & Hc) & _ & K).
  rewrite K, K0 in Hc.
  destruct (consistent_nth _ _ _ _ _ _ Hc i _ Hu)
    as ([tm vm] & [ts vs] & [tl vl] & [tw vw] & Hm & Hs & Hl & Hw & R).
  unfold row_ok in R. cbn [fst snd] in R.
  destruct R as (-> & <- & -> & -> & a & b & q & -> & -> & Hq & -> & -> & ->).
  exists a, b, q. unfold getMiddleBand, getStdDev, getLowerBand, getBandWidth.
  auto 10.
Qed.

End PipelineClaims.

(** ** Properties of the handler on exact numbers *)

Section ExactClaims.

(** The square root of the providers, which the handler does not use. *)
Variable sqrt : Qc -> Qc.

(** On rationals the lower value is the average minus the offset. *)
Lemma lower_value_exact (sma sd k : Qc) :
  @num_add Qc (rational sqrt) sma
    (@num_mul Qc (rational sqrt) (@num_mul Qc (rational sqrt) sd k)
       (@num_minus_one Qc (rational sqrt)))
  = (sma - sd * k)%Qc.
Proof. cbn. ring. Qed.

(** With the opposite number of deviations the upper and lower values
    are exchanged. *)
Lemma band_values_mirror (value : pyvalue Qc) (self : BollingerBands Qc) :
  fst (band_values (N := rational sqrt) value (mirror self)) =
  match fst (band_values (N := rational sqrt) value self) with
  | Ok (u, l, w) => Ok (l, u, w)
  | Raise e => Raise e
  end.
Proof.
  unfold band_values, bind, lift, try, gets, ret.
  destruct value as [x|]; [|reflexivity].
  cbn [mirror __sma __stdDev __numStdDev].
  destruct (getitem (out (__sma self)) (-1)) as [[m|]|e1]; try reflexivity.
  cbv beta. cbn [mirror __sma __stdDev __numStdDev].
  destruct (getitem (out (__stdDev self)) (-1)) as [[s|]|e2]; try reflexivity.
  cbn. destruct (Qc_eq_dec m 0) as [E|NE]; cbn; [reflexivity|].
  do 3 f_equal; [f_equal|]; f_equal; ring.
Qed.

(** X2.  Negating numStdDev exchanges the bands: the handler run on the
    mirror image of a composite has the same outcome and leaves the
    mirror image of what it leaves on the composite, so what one
    appends to its upper band the other appends to its lower band. *)
Theorem onNewValue_mirror (dataSeries : SequenceDataSeries Qc)
    (dateTime : datetime) (value : pyvalue Qc) (self : BollingerBands Qc) :
  __onNewValue (N := rational sqrt) dataSeries dateTime value (mirror self) =
  (fst (__onNewValue (N := rational sqrt) dataSeries dateTime value self),
   mirror (snd (__onNewValue (N := rational sqrt) dataSeries dateTime
                  value self))).
Proof.
  rewrite !onNewValue_unfold, band_values_mirror.
  destruct (fst (band_values value self)) as [[[u l] w]|e]; reflexivity.
Qed.

(** X3.  When the handler has appended defined band values, the latest
    standard deviation is not negative and numStdDev is not negative,
    the moving average lies between the bands:
    lower <= sma <= upper. *)
Theorem bands_bracket_average (dataSeries : SequenceDataSeries Qc)
    (dateTime : datetime) (value : pyvalue Qc)
    (self self' : BollingerBands Qc) (upper lower sd : Qc) :
  __onNewValue (N := rational sqrt) dataSeries dateTime value self
  = (Ok tt, self') ->
  getitem (getUpperBand self') (-1) = Ok (Some upper) ->
  getitem (getLowerBand self') (-1) = Ok (Some lower) ->
  getitem (getStdDev self) (-1) = Ok (Some sd) ->
  (0 <= sd)%Qc ->
  (0 <= __numStdDev self)%Qc ->
  exists sma : Qc,
    getitem (getMiddleBand self) (-1) = Ok (Some sma) /\
    (lower <= sma)%Qc /\ (sma <= upper)%Qc.
Proof.
  rewrite onNewValue_unfold.
  destruct (fst (band_values value self)) as [[[u l] w]|e] eqn:Hv;
    [|discriminate].
  intros [= <-]. unfold getUpperBand, getLowerBand, getMiddleBand, getStdDev.
  cbn [__upperBand __lowerBand].
  rewrite !getitem_last_append. intros [= ->] [= ->] Hsd Hpos Hk.
  apply band_values_inv in Hv.
  destruct Hv as [(Hu & _)|(sma & sd' & q & Hsma & Hsd' & _ & Hu & Hl & _)];
    [discriminate|].
  unfold getStdDev in Hsd. rewrite Hsd in Hsd'. injection Hsd' as <-.
  injection Hu as ->. injection Hl as ->.
  exists sma. split; [exact Hsma|]. cbn.
  assert (P : (0 <= sd * __numStdDev self)%Qc).
  { replace 0%Qc with (0 * __numStdDev self)%Qc by ring.
    now apply Qcmult_le_compat_r. }
  split.
  - apply Qcle_minus_iff.
    replace (sma + - (sma + sd * __numStdDev self * - (1)))%Qc
      with (sd * __numStdDev self)%Qc by ring.
    exact P.
  - apply Qcle_minus_iff.
    replace (sma + sd * __numStdDev self + - sma)%Qc
      with (sd * __numStdDev self)%Qc by ring.
    exact P.
Qed.

End ExactClaims.

(** C3 (amended).  Whenever the handler has appended defined upper and
    lower band values, the latest average [sma] and deviation [stdDev]
    are defined, upper is [sma + t] and lower is [sma + t * -1] for one
    and the same product [t = stdDev * numStdDev], in the arithmetic of
    the operands; on exact numbers this makes
    upper - lower = 2 * numStdDev * stdDev, whatever the sign of
    numStdDev. *)
Theorem upper_minus_lower :
  (forall (T : Type) (N : Number T) (dataSeries : SequenceDataSeries T)
          (dateTime : datetime) (value : pyvalue T)
          (self self' : BollingerBands T) (upper lower : T),
      __onNewValue dataSeries dateTime value self = (Ok tt, self') ->
      getitem (getUpperBand self') (-1) = Ok (Some upper) ->
      getitem (getLowerBand self') (-1) = Ok (Some lower) ->
      exists sma stdDev : T,
        getitem (getMiddleBand self) (-1) = Ok (Some sma) /\
        getitem (getStdDev self) (-1) = Ok (Some stdDev) /\
        upper = num_add sma (num_mul stdDev (__numStdDev self)) /\
        lower = num_add sma
                  (num_mul (num_mul stdDev (__numStdDev self))
                     num_minus_one)) /\
  (forall (sqrt : Qc -> Qc) (dataSeries : SequenceDataSeries Qc)
          (dateTime : datetime) (value : pyvalue Qc)
          (self self' : BollingerBands Qc) (upper lower : Qc),
      __onNewValue (N := rational sqrt) dataSeries dateTime value self
      = (Ok tt, self') ->
      getitem (getUpperBand self') (-1) = Ok (Some upper) ->
      getitem (getLowerBand self') (-1) = Ok (Some lower) ->
      exists stdDev : Qc,
        getitem (getStdDev self) (-1) = Ok (Some stdDev) /\
        (upper - lower = Q2Qc 2 * __numStdDev self * stdDev)%Qc).
Proof.
  split.
  - intros T N ds dt v self self' upper lower.
    apply onNewValue_defined_bands.
  - intros sqrt ds dt v self self' upper lower H Hu Hl.
    destruct (onNewValue_defined_bands ds dt v self self' upper lower H Hu Hl)
      as (sma & sd & _ & Hsd & -> & ->).
    exists sd. split; [exact Hsd|].
    cbn. change (Q2Qc 2) with (1 + 1)%Qc. ring.
Qed.

(** C9 (amended).  Whenever the handler has appended defined upper and
    lower band values, the latest average [sma] and deviation [stdDev]
    are defined, upper is [sma + t] and lower is [sma + t * -1] for one
    and the same product [t = stdDev * numStdDev], in the arithmetic of
    the operands; on exact numbers this makes upper + lower = 2 * sma:
    the bands are symmetric about the middle band, whatever the sign of
    numStdDev. *)
Theorem upper_plus_lower :
  (forall (T : Type) (N : Number T) (dataSeries : SequenceDataSeries T)
          (dateTime : datetime) (value : pyvalue T)
          (self self' : BollingerBands T) (upper lower : T),
      __onNewValue dataSeries dateTime value self = (Ok tt, self') ->
      getitem (getUpperBand self') (-1) = Ok (Some upper) ->
      getitem (getLowerBand self') (-1) = Ok (Some lower) ->
      exists sma stdDev : T,
        getitem (getMiddleBand self) (-1) = Ok (Some sma) /\
        getitem (getStdDev self) (-1) = Ok (Some stdDev) /\
        upper = num_add sma (num_mul stdDev (__numStdDev self)) /\
        lower = num_add sma
                  (num_mul (num_mul stdDev (__numStdDev self))
                     num_minus_one)) /\
  (forall (sqrt : Qc -> Qc) (dataSeries : SequenceDataSeries Qc)
          (dateTime : datetime) (value : pyvalue Qc)
          (self self' : BollingerBands Qc) (upper lower : Qc),
      __onNewValue (N := rational sqrt) dataSeries dateTime value self
      = (Ok tt, self') ->
      getitem (getUpperBand self') (-1) = Ok (Some upper) ->
      getitem (getLowerBand self') (-1) = Ok (Some lower) ->
      exists sma : Qc,
        getitem (getMiddleBand self) (-1) = Ok (Some sma) /\
        (upper + lower = Q2Qc 2 * sma)%Qc).
Proof.
  split.
  - intros T N ds dt v self self' upper lower.
    apply onNewValue_defined_bands.
  - intros sqrt ds dt v self self' upper lower H Hu Hl.
    destruct (onNewValue_defined_bands ds dt v self self' upper lower H Hu Hl)
      as (sma & sd & Hsma & _ & -> & ->).
    exists sma. split; [exact Hsma|].
    cbn. change (Q2Qc 2) with (1 + 1)%Qc. ring.
Qed.

(** ** The properties at concrete inputs *)

(** The scenario of the spec, run on the pipeline: period 2, two
    deviations, source 10, 12, 14, None, 16. *)
Example scenario_outputs :
  __init__ 1024 empty_source 2 (qc 2 1) None = Ok (scenario_start None) /\
  let (r, p) := feed (N := rational Qc_sqrt) scenario (scenario_start None) in
  r = Ok tt /\
  series_values (getMiddleBand (self p))
  = [None; Some (qc 11 1); Some (qc 13 1); None; None] /\
  series_values (getStdDev (self p))
  = [None; Some (qc 1 1); Some (qc 1 1); None; None] /\
  series_values (getUpperBand (self p))
  = [None; Some (qc 13 1); Some (qc 15 1); None; None] /\
  series_values (getLowerBand (self p))
  = [None; Some (qc 9 1); Some (qc 11 1); None; None] /\
  series_values (getBandWidth (self p))
  = [None; Some (qc 1 11); Some (qc 1 13); None; None].
Proof. split; [reflexivity|]. qc_eq. Qed.

(** On exact numbers a tick whose average is zero raises, and leaves
    the output series one entry short of the source: on the source
    -1, 3, -3 the third append stores the value, updates both
    statistics and raises in the composite. *)
Example zero_average_run :
  let (r, p) := feed (N := rational Qc_sqrt) zero_average_ticks
                  (scenario_start None) in
  r = Raise ZeroDivisionError /\
  series (source p) = source_zero_average /\
  self p = bands_zero_average.
Proof. qc_eq. Qed.

Lemma onNewValue_appends_bands_witness :
  getitem (out (__sma (float_bands 0 3 2))) (-1) = Ok (Some 0%float) /\
  getitem (out (__stdDev (float_bands 0 3 2))) (-1) = Ok (Some 3%float) /\
  @num_div float numpy_float64 3%float 0%float = Some infinity /\
  __onNewValue (N := numpy_float64) (series_of []) 3 (Some (-3)%float)
    (float_bands 0 3 2) =
  (Ok tt,
   mkBands (mkStat 2 (series_of [(1, Some 0%float)]))
           (mkStat 2 (series_of [(1, Some 3%float)]))
           (series_of [(3, Some 6%float)])
           (series_of [(3, Some (-6)%float)])
           2%float
           (series_of [(3, Some infinity)])).
Proof.
  split; [reflexivity|]. split; [reflexivity|]. split; [reflexivity|].
  exact (onNewValue_appends_bands (N := numpy_float64) (series_of []) 3
           (-3)%float 0%float 3%float infinity (float_bands 0 3 2)
           eq_refl eq_refl eq_refl).
Defined.

(** C1 as stated fails where the latest standard deviation is absent:
    the source value 12 and the average 11 are present, and the handler
    raises TypeError at line 69 instead of appending. *)
Lemma onNewValue_no_deviation_no_append :
  getitem (out (__sma bands_no_deviation)) (-1) = Ok (Some (qc 11 1)) /\
  getitem (out (__stdDev bands_no_deviation)) (-1) = Ok None /\
  __onNewValue (N := rational Qc_sqrt) source_second_tick 2
    (Some (qc 12 1)) bands_no_deviation
  = (Raise TypeError, bands_no_deviation) /\
  entries (getUpperBand
             (snd (__onNewValue (N := rational Qc_sqrt) source_second_tick 2
                     (Some (qc 12 1)) bands_no_deviation)))
  = [(1, None)].
Proof. repeat split; reflexivity. Qed.

Lemma onNewValue_appends_absent_witness :
  (Some (qc 10 1) = None \/
   getitem (out (__sma bands_first_tick)) (-1) = Ok None) /\
  __onNewValue (N := rational Qc_sqrt) (series_of [tick 1 10]) 1
    (Some (qc 10 1)) bands_first_tick =
  (Ok tt,
   mkBands (mkStat 2 (series_of [(1, None)]))
           (mkStat 2 (series_of [(1, None)]))
           (series_of [(1, None)]) (series_of [(1, None)])
           (qc 2 1) (series_of [(1, None)])).
Proof.
  split; [right; reflexivity|].
  exact (proj1 (onNewValue_appends_absent (N := rational Qc_sqrt)
                  (series_of [tick 1 10]) 1
                  (Some (qc 10 1)) bands_first_tick
                  (or_intror eq_refl))).
Defined.

Lemma upper_minus_lower_witness :
  exists stdDev : Qc,
    getitem (getStdDev bands_second_tick) (-1) = Ok (Some stdDev) /\
    (qc 13 1 - qc 9 1 = Q2Qc 2 * __numStdDev bands_second_tick * stdDev)%Qc.
Proof.
  exact (proj2 upper_minus_lower Qc_sqrt source_second_tick 2
           (Some (qc 12 1)) bands_second_tick _ (qc 13 1) (qc 9 1)
           eq_refl eq_refl eq_refl).
Defined.

(** C3 as stated fails on binary64 numbers: with average 100.3,
    deviation 1.1 and two deviations the handler appends 102.5 and
    98.1 (nearest floats); their difference is 4.400000000000006 while
    2 * 2 * 1.1 is 4.4, in binary64 and as exact rationals. *)
Lemma upper_minus_lower_binary64 :
  let self := float_bands 100.3 1.1 2 in
  let r := __onNewValue (N := numpy_float64) (series_of []) 2
             (Some 100.3%float) self in
  fst r = Ok tt /\
  getitem (getStdDev self) (-1) = Ok (Some 1.1%float) /\
  getitem (getUpperBand (snd r)) (-1) = Ok (Some 102.5%float) /\
  getitem (getLowerBand (snd r)) (-1) = Ok (Some 98.099999999999994%float) /\
  PrimFloat.sub 102.5 98.099999999999994 = 4.4000000000000057%float /\
  PrimFloat.mul (PrimFloat.mul 2 2) 1.1 = 4.4000000000000004%float /\
  PrimFloat.sub 102.5 98.099999999999994
  <> PrimFloat.mul (PrimFloat.mul 2 2) 1.1 /\
  match float_to_Q 102.5, float_to_Q 98.099999999999994,
        float_to_Q 2, float_to_Q 1.1 with
  | Some u, Some l, Some k, Some sd => ~ (u - l == 2 * k * sd)%Q
  | _, _, _, _ => False
  end.
Proof.
  cbv zeta. do 6 (split; [reflexivity|]). split.
  - intro H. apply (f_equal Prim2SF) in H. vm_compute in H. discriminate.
  - vm_compute. discriminate.
Qed.

Lemma upper_plus_lower_witness :
  exists sma : Qc,
    getitem (getMiddleBand bands_second_tick) (-1) = Ok (Some sma) /\
    (qc 13 1 + qc 9 1 = Q2Qc 2 * sma)%Qc.
Proof.
  exact (proj2 upper_plus_lower Qc_sqrt source_second_tick 2
           (Some (qc 12 1)) bands_second_tick _ (qc 13 1) (qc 9 1)
           eq_refl eq_refl eq_refl).
Defined.

(** C9 as stated fails on binary64 numbers: with average 0.1, deviation
    0.1 and two deviations the handler appends 0.30000000000000004 and
    -0.1; their sum is 0.20000000000000004 while 2 * 0.1 is 0.2, in
    binary64 and as exact rationals. *)
Lemma upper_plus_lower_binary64 :
  let self := float_bands 0.1 0.1 2 in
  let r := __onNewValue (N := numpy_float64) (series_of []) 2
             (Some 0.1%float) self in
  fst r = Ok tt /\
  getitem (getMiddleBand self) (-1) = Ok (Some 0.1%float) /\
  getitem (getUpperBand (snd r)) (-1) = Ok (Some 0.30000000000000004%float) /\
  getitem (getLowerBand (snd r)) (-1) = Ok (Some (-0.1)%float) /\
  PrimFloat.add 0.30000000000000004 (-0.1) = 0.20000000000000004%float /\
  PrimFloat.mul 2 0.1 = 0.2%float /\
  PrimFloat.add 0.30000000000000004 (-0.1) <> PrimFloat.mul 2 0.1 /\
  match float_to_Q 0.30000000000000004, float_to_Q (-0.1),
        float_to_Q 0.1 with
  | Some u, Some l, Some sma => ~ (u + l == 2 * sma)%Q
  | _, _, _ => False
  end.
Proof.
  cbv zeta. do 6 (split; [reflexivity|]). split.
  - intro H. apply (f_equal Prim2SF) in H. vm_compute in H. discriminate.
  - vm_compute. discriminate.
Qed.

Lemma onNewValue_follows_division_witness :
  getitem (out (__sma (float_bands 0 3 2))) (-1) = Ok (Some 0%float) /\
  getitem (out (__stdDev (float_bands 0 3 2))) (-1) = Ok (Some 3%float) /\
  @num_div float builtin_float 3%float 0%float = None /\
  __onNewValue (N := builtin_float) (series_of []) 3 (Some (-3)%float)
    (float_bands 0 3 2)
  = (Raise ZeroDivisionError, float_bands 0 3 2) /\
  is_ArithmeticError ZeroDivisionError = true.
Proof.
  split; [reflexivity|]. split; [reflexivity|]. split; [reflexivity|].
  exact (onNewValue_follows_division (N := builtin_float) (series_of []) 3
           (-3)%float 0%float 3%float (float_bands 0 3 2) eq_refl eq_refl).
Defined.

(** C4 as stated fails on float64 numbers: on the source -1, 3, -3 with
    period 2 the third tick has the average 0 and the deviation 3, the
    three appends to the source return, and the band width of the third
    tick is an infinity, which is neither an exception nor a nan; on
    built-in floats the same third tick raises ZeroDivisionError, so
    the outcome is not one policy either. *)
Lemma zero_average_appends_infinity :
  let r := feed (N := numpy_float64) float_zero_average_ticks float_start in
  __init__ 1024 (mkSource (series_of []) []) 2 2%float None = Ok float_start /\
  fst r = Ok tt /\
  entries (getMiddleBand (self (snd r)))
  = [(1, None); (2, Some 1%float); (3, Some 0%float)] /\
  entries (getStdDev (self (snd r)))
  = [(1, None); (2, Some 2%float); (3, Some 3%float)] /\
  entries (getUpperBand (self (snd r)))
  = [(1, None); (2, Some 5%float); (3, Some 6%float)] /\
  entries (getLowerBand (self (snd r)))
  = [(1, None); (2, Some (-3)%float); (3, Some (-6)%float)] /\
  entries (getBandWidth (self (snd r)))
  = [(1, None); (2, Some 2%float); (3, Some infinity)] /\
  PrimFloat.is_nan infinity = false /\
  fst (feed (N := builtin_float) float_zero_average_ticks float_start)
  = Raise ZeroDivisionError.
Proof. cbv zeta. repeat split; vm_compute; reflexivity. Qed.

Lemma onNewValue_absent_deviation_witness :
  getitem (out (__sma bands_no_deviation)) (-1) = Ok (Some (qc 11 1)) /\
  getitem (out (__stdDev bands_no_deviation)) (-1) = Ok None /\
  __onNewValue (N := rational Qc_sqrt) source_second_tick 2
    (Some (qc 12 1)) bands_no_deviation
  = (Raise TypeError, bands_no_deviation).
Proof.
  split; [reflexivity|]. split; [reflexivity|].
  exact (proj1 (onNewValue_absent_deviation (N := rational Qc_sqrt)
                  source_second_tick 2 (qc 12 1)
                  (qc 11 1) bands_no_deviation eq_refl) eq_refl).
Defined.

Lemma output_lengths_witness :
  let p := snd (feed (N := rational Qc_sqrt) scenario (scenario_start None)) in
  length (entries (getUpperBand (self p))) = Nat.min 5 1024 /\
  length (entries (getLowerBand (self p))) = Nat.min 5 1024 /\
  length (entries (getBandWidth (self p))) = Nat.min 5 1024.
Proof.
  assert (Hfeed : feed (N := rational Qc_sqrt) scenario (scenario_start None)
                  = (Ok tt, snd (feed (N := rational Qc_sqrt) scenario
                                   (scenario_start None))))
    by (vm_compute; reflexivity).
  exact (output_lengths (N := rational Qc_sqrt) 1024 empty_source 2 (qc 2 1)
           None scenario (scenario_start None)
           (snd (feed (N := rational Qc_sqrt) scenario (scenario_start None)))
           eq_refl eq_refl Hfeed).
Defined.

(** C5 as stated fails once the maximum length is reached: with
    [maxLen = 2] the five appends of the scenario all return and leave
    two entries, not five, in each output series. *)
Lemma output_lengths_bounded_scenario :
  __init__ 1024 empty_source 2 (qc 2 1) (Some 2%positive)
  = Ok (scenario_start (Some 2%positive)) /\
  fst (feed (N := rational Qc_sqrt) scenario
         (scenario_start (Some 2%positive))) = Ok tt /\
  length scenario = 5%nat /\
  let p := snd (feed (N := rational Qc_sqrt) scenario
                  (scenario_start (Some 2%positive))) in
  length (entries (getUpperBand (self p))) = 2%nat /\
  length (entries (getLowerBand (self p))) = 2%nat /\
  length (entries (getBandWidth (self p))) = 2%nat.
Proof. vm_compute. repeat split; reflexivity. Qed.

Lemma handler_reads_current_statistics_witness :
  let p := snd (source_append (N := rational Qc_sqrt) 1 (Some (qc 10 1))
                  (scenario_start None)) in
  let stored := appendWithDateTime 2 (Some (qc 12 1)) (series (source p)) in
  let b := after_providers (N := rational Qc_sqrt) stored 2 (Some (qc 12 1))
             (self p) in
  newValueEvent (source (scenario_start None))
  = [SMA_onNewValue; StdDev_onNewValue; Bollinger_onNewValue] /\
  stored = source_second_tick /\
  b = bands_second_tick /\
  getitem (getMiddleBand b) (-1) = Ok (Some (qc 11 1)) /\
  getitem (getStdDev b) (-1) = Ok (Some (qc 1 1)).
Proof.
  cbv zeta.
  destruct (handler_reads_current_statistics (N := rational Qc_sqrt) 1024
              empty_source 2
              (qc 2 1) None (scenario_start None) _ 2 (Some (qc 12 1))
              eq_refl eq_refl
              (evolves_step _ _ _ 1 (Some (qc 10 1)) (evolves_refl _ _)))
    as (H0 & _ & _ & _ & _ & H1 & H2).
  split; [exact H0|]. split; [reflexivity|]. split; [qc_eq|].
  split.
  - rewrite H1. qc_eq.
  - rewrite H2. qc_eq.
Defined.

Lemma raise_surfaces_without_append_witness :
  let p := snd (feed (N := rational Qc_sqrt) [tick 1 (-1); tick 2 3]
                  (scenario_start None)) in
  __onNewValue (N := rational Qc_sqrt) source_zero_average 3
    (Some (qc (-3) 1)) bands_zero_average
  = (Raise ZeroDivisionError, bands_zero_average) /\
  emit (N := rational Qc_sqrt) [Bollinger_onNewValue; Foreign 7]
    source_zero_average 3 (Some (qc (-3) 1)) bands_zero_average
  = (Raise ZeroDivisionError, bands_zero_average) /\
  fst (source_append (N := rational Qc_sqrt) 3 (Some (qc (-3) 1)) p)
  = Raise ZeroDivisionError /\
  getUpperBand (self (snd (source_append (N := rational Qc_sqrt) 3
                             (Some (qc (-3) 1)) p)))
  = getUpperBand (self p).
Proof.
  cbv zeta.
  destruct (raise_surfaces_without_append (N := rational Qc_sqrt)
              source_zero_average 3
              (Some (qc (-3) 1)) bands_zero_average bands_zero_average
              ZeroDivisionError eq_refl) as (_ & Hemit & Happend).
  split; [reflexivity|]. split; [exact (Hemit [Foreign 7])|].
  assert (Hb : bands_zero_average
               = after_providers (N := rational Qc_sqrt) source_zero_average 3
                   (Some (qc (-3) 1))
                   (self (snd (feed (N := rational Qc_sqrt)
                                 [tick 1 (-1); tick 2 3]
                                 (scenario_start None))))) by qc_eq.
  destruct (Happend 2
              (snd (feed (N := rational Qc_sqrt) [tick 1 (-1); tick 2 3]
                      (scenario_start None)))
              (ex_intro _ [] (conj eq_refl (conj eq_refl (conj eq_refl eq_refl))))
              eq_refl Hb) as (Hr & Hu & _).
  split; [exact Hr|exact Hu].
Defined.

Lemma bands_bracket_average_witness :
  exists sma : Qc,
    getitem (getMiddleBand bands_second_tick) (-1) = Ok (Some sma) /\
    (qc 9 1 <= sma)%Qc /\ (sma <= qc 13 1)%Qc.
Proof.
  assert (H1 : (0 <= qc 1 1)%Qc) by (vm_compute; discriminate).
  assert (H2 : (0 <= __numStdDev bands_second_tick)%Qc)
    by (vm_compute; discriminate).
  exact (bands_bracket_average Qc_sqrt source_second_tick 2 (Some (qc 12 1))
           bands_second_tick _ (qc 13 1) (qc 9 1) (qc 1 1)
           eq_refl eq_refl eq_refl eq_refl H1 H2).
Defined.

Lemma onNewValue_reads_latest_only_witness :
  let r1 := __onNewValue (N := rational Qc_sqrt) source_second_tick 2
              (Some (qc 12 1)) bands_second_tick in
  let r2 := __onNewValue (N := rational Qc_sqrt) (series_of []) 2
              (Some (qc 12 1)) bands_other_history in
  fst r1 = fst r2 /\
  (fst r1 = Ok tt ->
   getitem (getUpperBand (snd r1)) (-1) = getitem (getUpperBand (snd r2)) (-1) /\
   getitem (getLowerBand (snd r1)) (-1) = getitem (getLowerBand (snd r2)) (-1) /\
   getitem (getBandWidth (snd r1)) (-1)
   = getitem (getBandWidth (snd r2)) (-1)).
Proof.
  exact (onNewValue_reads_latest_only (N := rational Qc_sqrt)
           source_second_tick (series_of []) 2
           (Some (qc 12 1)) bands_second_tick bands_other_history
           eq_refl eq_refl eq_refl).
Defined.

Lemma outputs_stay_aligned_witness :
  let p1 := snd (source_append (N := rational Qc_sqrt) 1 (Some (qc (-1) 1))
                   (scenario_start None)) in
  let p2 := snd (source_append (N := rational Qc_sqrt) 2 (Some (qc 3 1)) p1) in
  let p3 := snd (source_append (N := rational Qc_sqrt) 3 (Some (qc (-3) 1))
                   p2) in
  shape (getUpperBand (self p3)) = shape (getLowerBand (self p3)) /\
  shape (getLowerBand (self p3)) = shape (getBandWidth (self p3)).
Proof.
  cbv zeta.
  exact (outputs_stay_aligned (N := rational Qc_sqrt) 1024 empty_source 2
           (qc 2 1) None
           (scenario_start None) _ eq_refl
           (evolves_step _ _ _ 3 (Some (qc (-3) 1))
              (evolves_step _ _ _ 2 (Some (qc 3 1))
                 (evolves_step _ _ _ 1 (Some (qc (-1) 1))
                    (evolves_refl _ _))))).
Defined.

Lemma series_hold_recent_ticks_witness :
  let p := snd (feed (N := rational Qc_sqrt) scenario
                  (scenario_start (Some 2%positive))) in
  map fst (entries (getMiddleBand (self p))) = [4; 5] /\
  map fst (entries (getStdDev (self p))) = [4; 5] /\
  map fst (entries (getUpperBand (self p))) = [4; 5] /\
  map fst (entries (getLowerBand (self p))) = [4; 5] /\
  map fst (entries (getBandWidth (self p))) = [4; 5].
Proof.
  assert (Hfeed : feed (N := rational Qc_sqrt) scenario
                    (scenario_start (Some 2%positive))
                  = (Ok tt,
                     snd (feed (N := rational Qc_sqrt) scenario
                            (scenario_start (Some 2%positive)))))
    by (vm_compute; reflexivity).
  exact (series_hold_recent_ticks (N := rational Qc_sqrt) 1024 empty_source 2
           (qc 2 1)
           (Some 2%positive) scenario (scenario_start (Some 2%positive))
           _ eq_refl eq_refl Hfeed).
Defined.

Lemma stored_bands_consistent_witness :
  let p := snd (feed (N := numpy_float64) float_zero_average_ticks
                  float_start) in
  exists sma sd width : float,
    nth_error (entries (getMiddleBand (self p))) 2 = Some (3, Some sma) /\
    nth_error (entries (getStdDev (self p))) 2 = Some (3, Some sd) /\
    @num_div float numpy_float64 sd sma = Some width /\
    6%float = @num_add float numpy_float64 sma
                (@num_mul float numpy_float64 sd 2%float) /\
    nth_error (entries (getLowerBand (self p))) 2
    = Some (3, Some (@num_add float numpy_float64 sma
                       (@num_mul float numpy_float64
                          (@num_mul float numpy_float64 sd 2%float)
                          (@num_minus_one float numpy_float64)))) /\
    nth_error (entries (getBandWidth (self p))) 2 = Some (3, Some width).
Proof.
  assert (Hfeed : feed (N := numpy_float64) float_zero_average_ticks
                    float_start
                  = (Ok tt,
                     snd (feed (N := numpy_float64) float_zero_average_ticks
                            float_start)))
    by (vm_compute; reflexivity).
  assert (Hu : nth_error
                 (entries (getUpperBand
                    (self (snd (feed (N := numpy_float64)
                                  float_zero_average_ticks float_start))))) 2
               = Some (3, Some 6%float)) by (vm_compute; reflexivity).
  exact (stored_bands_consistent (N := numpy_float64) 1024
           (mkSource (series_of []) []) 2 2%float None
           float_zero_average_ticks float_start _ 2%nat 3 6%float
           eq_refl eq_refl Hfeed Hu).
Defined.
